(** * PantryChef: the [recipe_recommendations] view and the dashboard query

    The recommendation computation of the application lives in one SQL view,
    [public.recipe_recommendations], read by [fetchRecommendations] in
    [Dashboard.tsx].  This file embeds the six tables the view reads as lists
    of rows (SQL bags), the view clause by clause (FROM, WHERE, GROUP BY,
    HAVING, select list), the dashboard query on top of it, and states the
    properties of the recommendation output against that embedding. *)

From Stdlib Require Import ZArith List String Bool Lia.
From Stdlib Require Import Sorting.Sorted Sorting.Permutation.
Import ListNotations.
Local Open Scope Z_scope.

(** ** Column types *)

(** A [UUID] column: a 128-bit value, compared only for equality. *)
Definition uuid := N.

(** A [DECIMAL(10,2)] column, held as its number of hundredths. *)
Definition decimal2 := Z.

(** [restriction_type TEXT CHECK (restriction_type IN ('allergy','dietary'))]. *)
Inductive restriction_type := allergy | dietary.

(** ** Tables

    One record per table, one field per column, nullable columns as [option].
    The timestamp columns ([created_at], [updated_at], [added_at]) are left
    out: the view reads none of them. *)

Record profiles_row := mk_profile {
  p_id : uuid;
  p_email : string;
  p_full_name : option string
}.

Record ingredients_row := mk_ingredient {
  i_id : uuid;
  i_name : string;
  i_category : option string
}.

Record recipes_row := mk_recipe {
  r_id : uuid;
  r_title : string;
  r_description : option string;
  r_instructions : option string;
  r_prep_time : option Z;
  r_cook_time : option Z;
  r_servings : option Z;
  r_image_url : option string
}.

Record user_pantry_row := mk_pantry {
  up_id : uuid;
  up_user_id : uuid;
  up_ingredient_id : uuid;
  up_quantity : option decimal2;
  up_unit : option string
}.

Record recipe_components_row := mk_component {
  rc_id : uuid;
  rc_recipe_id : uuid;
  rc_ingredient_id : uuid;
  rc_quantity : decimal2;
  rc_unit : option string
}.

Record user_restrictions_row := mk_restriction {
  ur_id : uuid;
  ur_user_id : uuid;
  ur_ingredient_id : uuid;
  ur_restriction_type : restriction_type;
  ur_notes : option string
}.

Record database := mk_database {
  profiles : list profiles_row;
  ingredients : list ingredients_row;
  recipes : list recipes_row;
  user_pantry : list user_pantry_row;
  recipe_components : list recipe_components_row;
  user_restrictions : list user_restrictions_row
}.

(** ** NUMERIC arithmetic of the [v_score] expression

    [ROUND(CAST(owned AS DECIMAL) / NULLIF(total, 0) * 100, 2)] is evaluated
    in the engine's decimal type: the quotient is carried to a scale chosen
    from the operands (at least sixteen significant digits, counted in
    base-10000 digits), rounded half away from zero, multiplied by 100 and
    rounded to two places.  Both operands are counts, so only non-negative
    values occur.  A numeric is held as its unscaled integer and its scale. *)

Record numeric := mk_numeric { unscaled : Z; dscale : Z }.

Definition NBASE : Z := 10000.
Definition DEC_DIGITS : Z := 4.
Definition NUMERIC_MIN_SIG_DIGITS : Z := 16.
Definition NUMERIC_MIN_DISPLAY_SCALE : Z := 0.
Definition NUMERIC_MAX_DISPLAY_SCALE : Z := 1000.

(** [NULLIF(a, b)]: NULL when the two are equal, [a] otherwise. *)
Definition NULLIF (a b : Z) : option Z :=
  if a =? b then None else Some a.

(** Weight (index of the leading base-10000 digit) and leading digit of a
    non-negative integer; [(0, 0)] for zero. *)
Fixpoint nbase_lead (fuel : nat) (n w : Z) : Z * Z :=
  match fuel with
  | O => (w, n)
  | S fuel' => if n <? NBASE then (w, n) else nbase_lead fuel' (n / NBASE) (w + 1)
  end.

Definition weight_and_first_digit (n : Z) : Z * Z :=
  nbase_lead (Z.to_nat (Z.log2 n)) n 0.

(** Result scale of a quotient of two integer-valued numerics. *)
Definition select_div_scale (a b : Z) : Z :=
  let (weight1, firstdigit1) := weight_and_first_digit a in
  let (weight2, firstdigit2) := weight_and_first_digit b in
  let qweight := weight1 - weight2 - (if firstdigit1 <=? firstdigit2 then 1 else 0) in
  let rscale := NUMERIC_MIN_SIG_DIGITS - qweight * DEC_DIGITS in
  Z.min (Z.max rscale NUMERIC_MIN_DISPLAY_SCALE) NUMERIC_MAX_DISPLAY_SCALE.

(** [a / b] rounded to the nearest integer, halves away from zero, for
    [0 <= a] and [0 < b]. *)
Definition div_round (a b : Z) : Z := (2 * a + b) / (2 * b).

Definition numeric_div (a b : Z) : numeric :=
  let rscale := select_div_scale a b in
  mk_numeric (div_round (a * 10 ^ rscale) b) rscale.

Definition numeric_mul_int (x : numeric) (k : Z) : numeric :=
  mk_numeric (unscaled x * k) (dscale x).

(** [ROUND(x, 2)], as a number of hundredths. *)
Definition numeric_round2 (x : numeric) : Z :=
  if dscale x <=? 2 then unscaled x * 10 ^ (2 - dscale x)
  else div_round (unscaled x) (10 ^ (dscale x - 2)).

(** The [v_score] column, in hundredths of a percent point; [None] is NULL,
    which the expression yields exactly when [NULLIF] does. *)
Definition v_score (owned total : Z) : option Z :=
  match NULLIF total 0 with
  | None => None
  | Some t => Some (numeric_round2 (numeric_mul_int (numeric_div owned t) 100))
  end.

(** ** The view [recipe_recommendations] *)

(** A row of the FROM clause: one row of each joined table, the pantry side
    NULL-extended by the LEFT JOIN. *)
Record from_row := mk_from {
  fr_r : recipes_row;
  fr_rc : recipe_components_row;
  fr_i : ingredients_row;
  fr_p : profiles_row;
  fr_up : option user_pantry_row
}.

(** [LEFT JOIN user_pantry up ON rc.ingredient_id = up.ingredient_id AND
    p.id = up.user_id]. *)
Definition left_join_user_pantry (db : database)
    (rc : recipe_components_row) (p : profiles_row) : list (option user_pantry_row) :=
  match filter (fun up => N.eqb (rc_ingredient_id rc) (up_ingredient_id up)
                          && N.eqb (p_id p) (up_user_id up)) (user_pantry db) with
  | [] => [None]
  | ups => map Some ups
  end.

(** [FROM recipes r INNER JOIN recipe_components rc ON r.id = rc.recipe_id
    INNER JOIN ingredients i ON rc.ingredient_id = i.id
    CROSS JOIN profiles p LEFT JOIN user_pantry up ON ...]. *)
Definition from_clause (db : database) : list from_row :=
  flat_map (fun r =>
    flat_map (fun rc =>
      flat_map (fun i =>
        flat_map (fun p =>
          map (mk_from r rc i p) (left_join_user_pantry db rc p))
          (profiles db))
        (filter (fun i => N.eqb (rc_ingredient_id rc) (i_id i)) (ingredients db)))
      (filter (fun rc => N.eqb (r_id r) (rc_recipe_id rc)) (recipe_components db)))
    (recipes db).

(** [WHERE NOT EXISTS (SELECT 1 FROM user_restrictions ur WHERE ur.user_id =
    p.id AND ur.ingredient_id = rc.ingredient_id)], evaluated on each joined
    row. *)
Definition where_clause (db : database) (j : from_row) : bool :=
  negb (existsb (fun ur => N.eqb (ur_user_id ur) (p_id (fr_p j))
                           && N.eqb (ur_ingredient_id ur) (rc_ingredient_id (fr_rc j)))
                (user_restrictions db)).

(** The nullable columns [up.user_id] and [up.ingredient_id] of a joined row. *)
Definition up_user_id_of (j : from_row) : option uuid :=
  option_map up_user_id (fr_up j).

Definition up_ingredient_id_of (j : from_row) : option uuid :=
  option_map up_ingredient_id (fr_up j).

(** [GROUP BY r.id, r.title, r.description, r.instructions, r.prep_time,
    r.cook_time, r.servings, r.image_url, up.user_id]: the eight recipe
    columns are all of [recipes_row], so the key is the recipe row paired
    with [up.user_id]; NULLs group together. *)
Definition group_key : Type := recipes_row * option uuid.

Definition key_of (j : from_row) : group_key := (fr_r j, up_user_id_of j).

Definition option_eq_dec {A : Type} (dec : forall x y : A, {x = y} + {x <> y}) :
  forall x y : option A, {x = y} + {x <> y}.
Proof. decide equality. Defined.

Definition recipes_row_eq_dec : forall x y : recipes_row, {x = y} + {x <> y}.
Proof.
  pose proof N.eq_dec. pose proof string_dec.
  pose proof (option_eq_dec string_dec). pose proof (option_eq_dec Z.eq_dec).
  decide equality.
Defined.

Definition group_key_eq_dec : forall x y : group_key, {x = y} + {x <> y}.
Proof.
  pose proof recipes_row_eq_dec. pose proof (option_eq_dec N.eq_dec).
  decide equality.
Defined.

Definition group_key_eqb (x y : group_key) : bool :=
  if group_key_eq_dec x y then true else false.

(** Grouping: the distinct keys, each with the rows that carry it. *)
Definition group_by (rows : list from_row) : list (group_key * list from_row) :=
  map (fun k => (k, filter (fun j => group_key_eqb (key_of j) k) rows))
      (nodup group_key_eq_dec (map key_of rows)).

(** The non-NULL values of a column. *)
Definition non_null {A : Type} (xs : list (option A)) : list A :=
  flat_map (fun o => match o with Some a => [a] | None => [] end) xs.

(** [COUNT(DISTINCT col)]: NULLs are not counted. *)
Definition count_distinct (xs : list (option uuid)) : Z :=
  Z.of_nat (List.length (nodup N.eq_dec (non_null xs))).

(** [ARRAY_AGG(DISTINCT e)]: NULL over no input rows, else the distinct
    values of [e] (a NULL value is an element like any other).  SQL leaves
    the order of the elements to the engine; the order of [nodup] (each value
    at its last occurrence) is used here. *)
Definition array_agg_distinct (xs : list (option string)) : option (list (option string)) :=
  match xs with
  | [] => None
  | _ => Some (nodup (option_eq_dec string_dec) xs)
  end.

(** [COUNT(DISTINCT rc.ingredient_id)] and [COUNT(DISTINCT up.ingredient_id)]
    over a group. *)
Definition count_rc_ingredient (g : list from_row) : Z :=
  count_distinct (map (fun j => Some (rc_ingredient_id (fr_rc j))) g).

Definition count_up_ingredient (g : list from_row) : Z :=
  count_distinct (map up_ingredient_id_of g).

(** [ARRAY_AGG(DISTINCT CASE WHEN up.ingredient_id IS NULL THEN i.name ELSE
    NULL END) FILTER (WHERE up.ingredient_id IS NULL)]. *)
Definition missing_ingredients_agg (g : list from_row) : option (list (option string)) :=
  array_agg_distinct
    (map (fun j => match up_ingredient_id_of j with
                   | None => Some (i_name (fr_i j))
                   | Some _ => None
                   end)
         (filter (fun j => match up_ingredient_id_of j with
                           | None => true
                           | Some _ => false
                           end) g)).

(** A row of the view. *)
Record recommendation := mk_recommendation {
  id : uuid;
  title : string;
  description : option string;
  instructions : option string;
  prep_time : option Z;
  cook_time : option Z;
  servings : option Z;
  image_url : option string;
  user_id : option uuid;
  rec_v_score : option Z;
  missing_ingredients : option (list (option string));
  total_ingredients : Z;
  owned_ingredients : Z
}.

(** [HAVING COUNT(DISTINCT rc.ingredient_id) > 0]. *)
Definition having (kg : group_key * list from_row) : bool :=
  0 <? count_rc_ingredient (snd kg).

(** The select list, evaluated on one group. *)
Definition select_list (kg : group_key * list from_row) : recommendation :=
  let r := fst (fst kg) in
  let g := snd kg in
  {| id := r_id r;
     title := r_title r;
     description := r_description r;
     instructions := r_instructions r;
     prep_time := r_prep_time r;
     cook_time := r_cook_time r;
     servings := r_servings r;
     image_url := r_image_url r;
     user_id := snd (fst kg);
     rec_v_score := v_score (count_up_ingredient g) (count_rc_ingredient g);
     missing_ingredients := missing_ingredients_agg g;
     total_ingredients := count_rc_ingredient g;
     owned_ingredients := count_up_ingredient g |}.

Definition recipe_recommendations (db : database) : list recommendation :=
  map select_list
      (filter having (group_by (filter (where_clause db) (from_clause db)))).

(** The rows that reach the GROUP BY, and among them the group of a key. *)
Definition grouped_rows (db : database) : list from_row :=
  filter (where_clause db) (from_clause db).

Definition group_of (db : database) (k : group_key) : list from_row :=
  filter (fun j => group_key_eqb (key_of j) k) (grouped_rows db).

(** ** The dashboard query *)

(** [.eq('user_id', userId)]: a NULL [user_id] never compares equal. *)
Definition eq_user_id (userId : uuid) (row : recommendation) : bool :=
  match user_id row with
  | Some u => N.eqb u userId
  | None => false
  end.

(** Position under [ORDER BY v_score DESC]: [a] may precede [b].  NULLs come
    first in a descending order. *)
Definition v_score_desc (a b : option Z) : bool :=
  match a, b with
  | None, _ => true
  | Some _, None => false
  | Some x, Some y => y <=? x
  end.

Fixpoint insert_desc (row : recommendation) (l : list recommendation) : list recommendation :=
  match l with
  | [] => [row]
  | h :: t =>
      if v_score_desc (rec_v_score row) (rec_v_score h) then row :: l
      else h :: insert_desc row t
  end.

(** [.order('v_score', { ascending: false })], as an insertion sort.  The
    clause fixes no order among rows of equal [v_score], and the view has no
    ORDER BY of its own: this is one of the orders the query may return, and
    what it may return at all is [ordered_by_v_score_desc] below. *)
Definition order_by_v_score_desc (l : list recommendation) : list recommendation :=
  fold_right insert_desc [] l.

(** [supabase.from('recipe_recommendations').select('*').eq('user_id', userId)
    .order('v_score', { ascending: false })]: the rows handed to [setRecipes]. *)
Definition fetchRecommendations (db : database) (userId : uuid) : list recommendation :=
  order_by_v_score_desc (filter (eq_user_id userId) (recipe_recommendations db)).

(** [supabase.from('user_pantry').insert({user_id, ingredient_id, quantity,
    unit})] of [addToPantry]: the table gains the row; [UNIQUE(user_id,
    ingredient_id)] rejects a second row for the same pair. *)
Definition pantry_has (db : database) (u ing : uuid) : bool :=
  existsb (fun up => N.eqb (up_user_id up) u && N.eqb (up_ingredient_id up) ing)
          (user_pantry db).

Definition addToPantry (db : database) (row : user_pantry_row) : option database :=
  if pantry_has db (up_user_id row) (up_ingredient_id row) then None
  else Some {| profiles := profiles db;
               ingredients := ingredients db;
               recipes := recipes db;
               user_pantry := user_pantry db ++ [row];
               recipe_components := recipe_components db;
               user_restrictions := user_restrictions db |}.

(** ** Vocabulary of the statements *)

(** [a] stands before [b] in a descending order of [v_score]. *)
Definition desc_order (a b : recommendation) : Prop :=
  v_score_desc (rec_v_score a) (rec_v_score b) = true.

(** The rows of one score. *)
Definition has_score (s : option Z) (row : recommendation) : bool :=
  if option_eq_dec Z.eq_dec (rec_v_score row) s then true else false.

(** What [ORDER BY v_score DESC] promises of its output: the rows of the
    input, in descending order of [v_score]. *)
Definition ordered_by_v_score_desc (input output : list recommendation) : Prop :=
  Permutation input output /\ StronglySorted desc_order output.

(** A list the dashboard query may return for a user. *)
Definition may_fetch (db : database) (u : uuid) (output : list recommendation) : Prop :=
  ordered_by_v_score_desc (filter (eq_user_id u) (recipe_recommendations db)) output.

(** Rows of equal score stand in the order in which the view lists them. *)
Definition ties_keep_view_order (db : database) (u : uuid)
    (output : list recommendation) : Prop :=
  forall s, filter (has_score s) output =
            filter (has_score s) (filter (eq_user_id u) (recipe_recommendations db)).

(** Both scores are present and the first is not above the second. *)
Definition score_le (a b : option Z) : Prop :=
  match a, b with
  | Some x, Some y => x <= y
  | _, _ => False
  end.

(** The Requirement Set of a recipe: the distinct ingredients of its
    components, each at its last occurrence. *)
Definition requirement_set (db : database) (rid : uuid) : list uuid :=
  nodup N.eq_dec
    (map rc_ingredient_id
         (filter (fun rc => N.eqb (rc_recipe_id rc) rid) (recipe_components db))).

(** The Restriction Set of a user, whatever the restriction type. *)
Definition restriction_set (db : database) (u : uuid) : list uuid :=
  map ur_ingredient_id
      (filter (fun ur => N.eqb (ur_user_id ur) u) (user_restrictions db)).

(** The required ingredients of a recipe that the user restricts. *)
Definition restricted_in (db : database) (u rid : uuid) : list uuid :=
  filter (fun ing => existsb (N.eqb ing) (restriction_set db u))
         (requirement_set db rid).

(** ** What decides a listing *)

(** A component the view can count for a user: its ingredient has a row in
    [ingredients], the user has it in [user_pantry] and has no row for it in
    [user_restrictions]. *)
Definition restricted (db : database) (u ing : uuid) : bool :=
  existsb (fun ur => N.eqb (ur_user_id ur) u && N.eqb (ur_ingredient_id ur) ing)
          (user_restrictions db).

Definition usable_component (db : database) (u : uuid) (rc : recipe_components_row) : bool :=
  existsb (fun i => N.eqb (rc_ingredient_id rc) (i_id i)) (ingredients db)
  && pantry_has db u (rc_ingredient_id rc)
  && negb (restricted db u (rc_ingredient_id rc)).

(** The usable components of a recipe, and the test that a recipe row has
    one for a user with a profile. *)
Definition usable_components (db : database) (u rid : uuid) : list recipe_components_row :=
  filter (fun rc => N.eqb (rc_recipe_id rc) rid && usable_component db u rc)
         (recipe_components db).

Definition listed_for (db : database) (u rid : uuid) : bool :=
  existsb (fun r => N.eqb (r_id r) rid) (recipes db)
  && existsb (fun p => N.eqb (p_id p) u) (profiles db)
  && negb (match usable_components db u rid with [] => true | _ => false end).

(** The database as one user is allowed to read it under the row-level
    security policies: [profiles] USING (auth.uid() = id), [user_pantry] and
    [user_restrictions] USING (auth.uid() = user_id), the three catalog
    tables USING (true). *)
Definition own_rows (db : database) (u : uuid) : database :=
  {| profiles := filter (fun p => N.eqb (p_id p) u) (profiles db);
     ingredients := ingredients db;
     recipes := recipes db;
     user_pantry := filter (fun up => N.eqb (up_user_id up) u) (user_pantry db);
     recipe_components := recipe_components db;
     user_restrictions := filter (fun ur => N.eqb (ur_user_id ur) u) (user_restrictions db) |}.

(** The joined rows of one user's groups: those that pass the WHERE clause
    with [up.user_id] equal to the user. *)
Definition of_user (u : uuid) (j : from_row) : bool :=
  match up_user_id_of j with
  | Some v => N.eqb v u
  | None => false
  end.

Definition user_rows (db : database) (u : uuid) : list from_row :=
  filter (of_user u) (grouped_rows db).

(** ** Writes to the user tables

    The pages write [user_pantry] and [user_restrictions] through the
    client; the database applies the row-level security policies and the
    constraints of the tables.  [auth] is [auth.uid()]: the id of the
    signed-in user, NULL without a session. *)

Definition auth_uid_is (auth : option uuid) (u : uuid) : bool :=
  match auth with
  | Some a => N.eqb a u
  | None => false
  end.

Definition set_user_pantry (db : database) (l : list user_pantry_row) : database :=
  {| profiles := profiles db;
     ingredients := ingredients db;
     recipes := recipes db;
     user_pantry := l;
     recipe_components := recipe_components db;
     user_restrictions := user_restrictions db |}.

Definition set_user_restrictions (db : database) (l : list user_restrictions_row) : database :=
  {| profiles := profiles db;
     ingredients := ingredients db;
     recipes := recipes db;
     user_pantry := user_pantry db;
     recipe_components := recipe_components db;
     user_restrictions := l |}.

(** A value fits [DECIMAL(10,2)]: fewer than ten digits in hundredths. *)
Definition fits_decimal_10_2 (q : option decimal2) : bool :=
  match q with
  | Some v => Z.abs v <? 10 ^ 10
  | None => true
  end.

(** [INSERT INTO user_pantry]: policy WITH CHECK (auth.uid() = user_id),
    PRIMARY KEY (id), the column type of [quantity], REFERENCES
    profiles(id), REFERENCES ingredients(id) and, through [addToPantry],
    UNIQUE(user_id, ingredient_id).  [None] is the error of the client. *)
Definition insert_user_pantry (auth : option uuid) (db : database)
    (row : user_pantry_row) : option database :=
  if auth_uid_is auth (up_user_id row)
     && negb (existsb (fun up => N.eqb (up_id up) (up_id row)) (user_pantry db))
     && fits_decimal_10_2 (up_quantity row)
     && existsb (fun p => N.eqb (p_id p) (up_user_id row)) (profiles db)
     && existsb (fun i => N.eqb (i_id i) (up_ingredient_id row)) (ingredients db)
  then addToPantry db row
  else None.

(** [DELETE FROM user_pantry WHERE id = itemId], policy USING (auth.uid() =
    user_id): rows the policy hides are left alone, and deleting no row is
    no error. *)
Definition delete_user_pantry (auth : option uuid) (db : database) (itemId : uuid) : database :=
  set_user_pantry db
    (filter (fun up => negb (N.eqb (up_id up) itemId && auth_uid_is auth (up_user_id up)))
            (user_pantry db)).

(** [INSERT INTO user_restrictions]: policy WITH CHECK (auth.uid() =
    user_id), PRIMARY KEY (id), the two foreign keys and UNIQUE(user_id,
    ingredient_id); the CHECK on [restriction_type] holds by the type. *)
Definition insert_user_restrictions (auth : option uuid) (db : database)
    (row : user_restrictions_row) : option database :=
  if auth_uid_is auth (ur_user_id row)
     && negb (existsb (fun ur => N.eqb (ur_id ur) (ur_id row)) (user_restrictions db))
     && existsb (fun p => N.eqb (p_id p) (ur_user_id row)) (profiles db)
     && existsb (fun i => N.eqb (i_id i) (ur_ingredient_id row)) (ingredients db)
     && negb (restricted db (ur_user_id row) (ur_ingredient_id row))
  then Some (set_user_restrictions db (user_restrictions db ++ [row]))
  else None.

(** [DELETE FROM user_restrictions WHERE id = restrictionId], policy USING
    (auth.uid() = user_id). *)
Definition delete_user_restrictions (auth : option uuid) (db : database)
    (restrictionId : uuid) : database :=
  set_user_restrictions db
    (filter (fun ur => negb (N.eqb (ur_id ur) restrictionId && auth_uid_is auth (ur_user_id ur)))
            (user_restrictions db)).

(** The constraints of [user_pantry]: primary key, UNIQUE(user_id,
    ingredient_id) and the two foreign keys. *)
Definition user_pantry_ok (db : database) : Prop :=
  NoDup (map up_id (user_pantry db)) /\
  NoDup (map (fun up => (up_user_id up, up_ingredient_id up)) (user_pantry db)) /\
  (forall up, In up (user_pantry db) ->
     In (up_user_id up) (map p_id (profiles db)) /\
     In (up_ingredient_id up) (map i_id (ingredients db))).

(** The same for [user_restrictions]. *)
Definition user_restrictions_ok (db : database) : Prop :=
  NoDup (map ur_id (user_restrictions db)) /\
  NoDup (map (fun ur => (ur_user_id ur, ur_ingredient_id ur)) (user_restrictions db)) /\
  (forall ur, In ur (user_restrictions db) ->
     In (ur_user_id ur) (map p_id (profiles db)) /\
     In (ur_ingredient_id ur) (map i_id (ingredients db))).

(** [x || null] and [x || ''] on a nullable string: the empty string is
    falsy. *)
Definition or_null (s : option string) : option string :=
  match s with
  | Some EmptyString => None
  | _ => s
  end.

Definition or_empty (s : option string) : string :=
  match s with
  | Some v => v
  | None => EmptyString
  end.

(** The embedded resource [ingredients (...)] of a row that references
    [ingredients(id)]: the referenced row, or null. *)
Definition embedded_ingredient (db : database) (ing : uuid) : option ingredients_row :=
  find (fun i => N.eqb (i_id i) ing) (ingredients db).

(** ** The pantry page *)

Module Pantry.

Record PantryItem := mk_item {
  id : uuid;
  ingredient_id : uuid;
  quantity : decimal2;
  unit : option string;
  ingredient_name : string;
  ingredient_category : option string
}.

(** The [map] of [fetchPantryItems]: [quantity || 0], [name || ''],
    [category || null]. *)
Definition format (db : database) (item : user_pantry_row) : PantryItem :=
  let ingredients := embedded_ingredient db (up_ingredient_id item) in
  {| id := up_id item;
     ingredient_id := up_ingredient_id item;
     quantity := match up_quantity item with Some q => q | None => 0 end;
     unit := up_unit item;
     ingredient_name := or_empty (option_map i_name ingredients);
     ingredient_category :=
       or_null (match ingredients with Some i => i_category i | None => None end) |}.

(** [from('user_pantry').select(...).eq('user_id', userId)], read under
    the policy USING (auth.uid() = user_id); the result is [pantryItems]. *)
Definition fetchPantryItems (auth : option uuid) (db : database) (userId : uuid)
    : list PantryItem :=
  map (format db)
      (filter (fun up => N.eqb (up_user_id up) userId)
              (filter (fun up => auth_uid_is auth (up_user_id up)) (user_pantry db))).

(** The page: the database it talks to and its [pantryItems] state. *)
Definition page : Type := database * list PantryItem.

(** [addToPantry]: nothing happens without a selected ingredient, without a
    signed-in user or when the insert fails; otherwise the list is fetched
    again.  [new_id] is the id [uuid_generate_v4()] gives the row,
    [quantity] the value [parseFloat(quantity)] is stored as. *)
Definition addToPantry (auth : option uuid) (new_id : uuid)
    (selectedIngredient : option uuid) (quantity : option decimal2) (unit : string)
    (st : page) : page :=
  match selectedIngredient with
  | None => st
  | Some ing =>
      match auth with
      | None => st
      | Some user =>
          match insert_user_pantry auth (fst st)
                  (mk_pantry new_id user ing quantity (or_null (Some unit))) with
          | None => st
          | Some db' => (db', fetchPantryItems auth db' user)
          end
      end
  end.

(** [removeFromPantry]: the delete, then
    [pantryItems.filter(item => item.id !== itemId)]. *)
Definition removeFromPantry (auth : option uuid) (itemId : uuid) (st : page) : page :=
  (delete_user_pantry auth (fst st) itemId,
   filter (fun item => negb (N.eqb (id item) itemId)) (snd st)).

End Pantry.

(** ** The restrictions page *)

(** The union type ['allergy' | 'dietary'] of the page. *)
Definition RestrictionType : Type := restriction_type.

Module Restrictions.

Record Restriction := mk_item {
  id : uuid;
  ingredient_id : uuid;
  restriction_type : restriction_type;
  notes : option string;
  ingredient_name : string;
  ingredient_category : option string
}.

Definition format (db : database) (item : user_restrictions_row) : Restriction :=
  let ingredients := embedded_ingredient db (ur_ingredient_id item) in
  {| id := ur_id item;
     ingredient_id := ur_ingredient_id item;
     restriction_type := ur_restriction_type item;
     notes := ur_notes item;
     ingredient_name := or_empty (option_map i_name ingredients);
     ingredient_category :=
       or_null (match ingredients with Some i => i_category i | None => None end) |}.

(** [from('user_restrictions').select(...).eq('user_id', userId)], read
    under the policy USING (auth.uid() = user_id). *)
Definition fetchRestrictions (auth : option uuid) (db : database) (userId : uuid)
    : list Restriction :=
  map (format db)
      (filter (fun ur => N.eqb (ur_user_id ur) userId)
              (filter (fun ur => auth_uid_is auth (ur_user_id ur)) (user_restrictions db))).

Definition page : Type := database * list Restriction.

(** [addRestriction], with [notes || null]. *)
Definition addRestriction (auth : option uuid) (new_id : uuid)
    (selectedIngredient : option uuid) (restrictionType : RestrictionType)
    (notes : string) (st : page) : page :=
  match selectedIngredient with
  | None => st
  | Some ing =>
      match auth with
      | None => st
      | Some user =>
          match insert_user_restrictions auth (fst st)
                  (mk_restriction new_id user ing restrictionType (or_null (Some notes))) with
          | None => st
          | Some db' => (db', fetchRestrictions auth db' user)
          end
      end
  end.

(** [removeRestriction]: the delete, then
    [restrictions.filter(r => r.id !== restrictionId)]. *)
Definition removeRestriction (auth : option uuid) (restrictionId : uuid) (st : page) : page :=
  (delete_user_restrictions auth (fst st) restrictionId,
   filter (fun r => negb (N.eqb (id r) restrictionId)) (snd st)).

End Restrictions.

(** ** Conditional rendering

    The value of [x && <element>] for a nullable number [x]: [null] and [0]
    are falsy and are the value of the whole expression (React prints the
    [0]); any other number gives the element. *)
Inductive rendered (A : Type) : Type :=
| js_null : rendered A
| js_zero : rendered A
| element : A -> rendered A.

Arguments js_null {A}.
Arguments js_zero {A}.
Arguments element {A} _.

(** ** The recipe page *)

Module Recipe.

Record RecipeComponent := mk_item {
  quantity : decimal2;
  unit : option string;
  ingredient_name : string
}.

Definition format (db : database) (c : recipe_components_row) : RecipeComponent :=
  {| quantity := rc_quantity c;
     unit := rc_unit c;
     ingredient_name :=
       or_empty (option_map i_name (embedded_ingredient db (rc_ingredient_id c))) |}.

(** The policies of [recipes], [recipe_components] and [ingredients]:
    TO authenticated USING (true). *)
Definition authenticated (auth : option uuid) : bool :=
  match auth with
  | Some _ => true
  | None => false
  end.

(** [fetchRecipe]: [from('recipes').select('*').eq('id', id).single()] is an
    error unless exactly one row comes back; after an error the components
    are not fetched, [recipe] stays null and [components] empty. *)
Definition fetchRecipe (auth : option uuid) (db : database) (id : uuid)
    : option recipes_row * list RecipeComponent :=
  match (if authenticated auth
         then filter (fun r => N.eqb (r_id r) id) (recipes db)
         else []) with
  | [recipeData] =>
      (Some recipeData,
       map (format db)
           (filter (fun c => N.eqb (rc_recipe_id c) id) (recipe_components db)))
  | _ => (None, [])
  end.

(** [recipe.prep_time && recipe.cook_time && (... {recipe.prep_time +
    recipe.cook_time} minutes ...)]. *)
Definition total_time (recipe : recipes_row) : rendered Z :=
  match r_prep_time recipe with
  | None => js_null
  | Some 0 => js_zero
  | Some prep =>
      match r_cook_time recipe with
      | None => js_null
      | Some 0 => js_zero
      | Some cook => element (prep + cook)
      end
  end.

(** The state of the page: [recipe], [components], [loading], and whether
    [navigate('/auth')] was called. *)
Record page := mk_page {
  recipe : option recipes_row;
  components : list RecipeComponent;
  loading : bool;
  to_auth : bool
}.

(** The state of a page just mounted. *)
Definition initial : page := mk_page None [] true false.

(** [checkAuthAndLoad]: without a session the page navigates to /auth and
    returns; with one, [fetchRecipe] sets [recipe] and [components] when the
    recipe is found, leaves them when the query fails, and ends [loading]
    either way. *)
Definition checkAuthAndLoad (session : option uuid) (db : database) (id : uuid)
    (st : page) : page :=
  match session with
  | None => mk_page (recipe st) (components st) (loading st) true
  | Some _ =>
      match fetchRecipe session db id with
      | (Some recipeData, formattedComponents) =>
          mk_page (Some recipeData) formattedComponents false (to_auth st)
      | (None, _) => mk_page (recipe st) (components st) false (to_auth st)
      end
  end.

(** What the component returns: the skeleton while [loading], "Recipe not
    found" without a recipe, the detail otherwise. *)
Inductive screen : Type :=
| skeleton : screen
| recipe_not_found : screen
| detail : recipes_row -> list RecipeComponent -> screen.

Definition render (st : page) : screen :=
  if loading st then skeleton
  else match recipe st with
       | None => recipe_not_found
       | Some r => detail r (components st)
       end.

End Recipe.

(** ** The cards of the dashboard *)

Module Dashboard.

(** [recipe.prep_time && (... {recipe.prep_time + (recipe.cook_time || 0)}
    min ...)]. *)
Definition total_time (recipe : recommendation) : rendered Z :=
  match prep_time recipe with
  | None => js_null
  | Some 0 => js_zero
  | Some prep =>
      element (prep + match cook_time recipe with Some cook => cook | None => 0 end)
  end.

(** [<Progress value={recipe.v_score || 0} />], in hundredths. *)
Definition progress_value (recipe : recommendation) : Z :=
  match rec_v_score recipe with
  | Some v => v
  | None => 0
  end.

(** The "Missing:" block: rendered when [missing_ingredients] is a
    non-empty array, with the badges of [slice(0, 3)] and, past three, the
    count of the "+n more" badge. *)
Definition missing_section (recipe : recommendation)
    : option (list (option string) * option Z) :=
  match missing_ingredients recipe with
  | None => None
  | Some l =>
      if (0 <? List.length l)%nat
      then Some (firstn 3 l,
                 if (3 <? List.length l)%nat
                 then Some (Z.of_nat (List.length l) - 3)
                 else None)
      else None
  end.

End Dashboard.

(** A recipe id has a row in the list of a user. *)
Definition lists (db : database) (u rid : uuid) : Prop :=
  exists row, In row (fetchRecommendations db u) /\ id row = rid.

(** ** Sample data: the omelette scenario *)

Definition eggs : uuid := 1%N.
Definition cheese : uuid := 2%N.
Definition milk : uuid := 3%N.
Definition butter : uuid := 4%N.
Definition salt : uuid := 5%N.
Definition pepper : uuid := 6%N.

Definition omelette_id : uuid := 100%N.
Definition alice : uuid := 200%N.

Definition sample_ingredients : list ingredients_row :=
  [ mk_ingredient eggs "Eggs" (Some "Protein"%string);
    mk_ingredient cheese "Cheese" (Some "Dairy"%string);
    mk_ingredient milk "Milk" (Some "Dairy"%string);
    mk_ingredient butter "Butter" (Some "Dairy"%string);
    mk_ingredient salt "Salt" (Some "Seasoning"%string);
    mk_ingredient pepper "Pepper" (Some "Seasoning"%string) ].

Definition omelette : recipes_row :=
  mk_recipe omelette_id "Omelette" (Some "Fluffy eggs with melted cheese"%string)
            None (Some 5) (Some 10) (Some 2) None.

(** Quantities in hundredths: 3 pieces, 50 grams, 50 ml, 1 tbsp, 0.5 tsp,
    0.25 tsp. *)
Definition omelette_components : list recipe_components_row :=
  [ mk_component 11%N omelette_id eggs 300 (Some "pieces"%string);
    mk_component 12%N omelette_id cheese 5000 (Some "grams"%string);
    mk_component 13%N omelette_id milk 5000 (Some "ml"%string);
    mk_component 14%N omelette_id butter 100 (Some "tbsp"%string);
    mk_component 15%N omelette_id salt 50 (Some "tsp"%string);
    mk_component 16%N omelette_id pepper 25 (Some "tsp"%string) ].

Definition alice_profile : profiles_row :=
  mk_profile alice "alice@example.org" None.

Definition alice_pantry : list user_pantry_row :=
  [ mk_pantry 21%N alice eggs (Some 100) None;
    mk_pantry 22%N alice cheese (Some 100) None;
    mk_pantry 23%N alice milk (Some 100) None ].

(** Pantry {Eggs, Cheese, Milk}, no restrictions. *)
Definition omelette_db : database :=
  mk_database [alice_profile] sample_ingredients [omelette]
              alice_pantry omelette_components [].

(** The same, with Eggs restricted as an allergy. *)
Definition omelette_allergy_db : database :=
  mk_database [alice_profile] sample_ingredients [omelette]
              alice_pantry omelette_components
              [ mk_restriction 31%N alice eggs allergy None ].

(** Empty pantry, no restrictions. *)
Definition empty_pantry_db : database :=
  mk_database [alice_profile] sample_ingredients [omelette]
              [] omelette_components [].

(** The row the view holds for the omelette and the user of [omelette_db]. *)
Definition alice_omelette_row : recommendation :=
  {| id := omelette_id;
     title := "Omelette";
     description := Some "Fluffy eggs with melted cheese"%string;
     instructions := None;
     prep_time := Some 5;
     cook_time := Some 10;
     servings := Some 2;
     image_url := None;
     user_id := Some alice;
     rec_v_score := Some 10000;
     missing_ingredients := None;
     total_ingredients := 3;
     owned_ingredients := 3 |}.

(** A pantry row for Butter, and [omelette_db] once it is added. *)
Definition alice_butter : user_pantry_row :=
  mk_pantry 24%N alice butter (Some 100) None.

Definition omelette_butter_db : database :=
  mk_database [alice_profile] sample_ingredients [omelette]
              (alice_pantry ++ [alice_butter]) omelette_components [].

(** A second recipe without any component. *)
Definition water_id : uuid := 101%N.

Definition water : recipes_row :=
  mk_recipe water_id "Glass of water" None None None None None None.

Definition two_recipe_db : database :=
  mk_database [alice_profile] sample_ingredients [omelette; water]
              alice_pantry omelette_components [].

(** A second dish the user can start on: it requires Eggs and Butter. *)
Definition buttered_eggs_id : uuid := 102%N.

Definition buttered_eggs : recipes_row :=
  mk_recipe buttered_eggs_id "Buttered eggs" None None (Some 2) (Some 5) (Some 1) None.

Definition two_dish_db : database :=
  mk_database [alice_profile] sample_ingredients [omelette; buttered_eggs]
              alice_pantry
              (omelette_components ++
               [ mk_component 17%N buttered_eggs_id eggs 200 (Some "pieces"%string);
                 mk_component 18%N buttered_eggs_id butter 100 (Some "tbsp"%string) ])
              [].

(** A second user with a profile, a pantry row and a restriction. *)
Definition bob : uuid := 201%N.

Definition bob_profile : profiles_row :=
  mk_profile bob "bob@example.org" None.

Definition two_user_db : database :=
  mk_database [alice_profile; bob_profile] sample_ingredients [omelette]
              (alice_pantry ++ [ mk_pantry 25%N bob eggs (Some 100) None ])
              omelette_components
              [ mk_restriction 25%N bob salt dietary None ].

(** * Properties *)

(** ** The score of a fully owned requirement list *)

Lemma div_round_exact (q d : Z) : 0 < d -> div_round (q * d) d = q.
Proof.
  intros Hd. unfold div_round.
  replace (2 * (q * d) + d) with (q * (2 * d) + d) by ring.
  rewrite Z.div_add_l by lia.
  rewrite (Z.div_small d (2 * d)) by lia. ring.
Qed.

Lemma select_div_scale_nonneg (a b : Z) : 0 <= select_div_scale a b.
Proof.
  unfold select_div_scale.
  destruct (weight_and_first_digit a), (weight_and_first_digit b).
  unfold NUMERIC_MIN_DISPLAY_SCALE, NUMERIC_MAX_DISPLAY_SCALE. lia.
Qed.

Lemma numeric_round2_hundred (s : Z) :
  0 <= s -> numeric_round2 (mk_numeric (10 ^ s * 100) s) = 10000.
Proof.
  intros Hs. unfold numeric_round2. cbn [dscale unscaled].
  destruct (s <=? 2) eqn:E.
  - apply Z.leb_le in E.
    replace (10 ^ s * 100 * 10 ^ (2 - s)) with (100 * (10 ^ s * 10 ^ (2 - s))) by ring.
    rewrite <- Z.pow_add_r by lia.
    replace (s + (2 - s)) with 2 by lia. reflexivity.
  - apply Z.leb_gt in E.
    replace (10 ^ s) with (10 ^ (s - 2) * 10 ^ 2)
      by (rewrite <- Z.pow_add_r by lia; f_equal; lia).
    replace (10 ^ (s - 2) * 10 ^ 2 * 100) with (10000 * 10 ^ (s - 2))
      by (change (10 ^ 2) with 100; ring).
    apply div_round_exact. apply Z.pow_pos_nonneg; lia.
Qed.

Lemma v_score_all_owned (n : Z) : 0 < n -> v_score n n = Some 10000.
Proof.
  intros Hn. unfold v_score, NULLIF.
  destruct (n =? 0) eqn:E; [apply Z.eqb_eq in E; lia|].
  f_equal. unfold numeric_div, numeric_mul_int. cbn [dscale unscaled].
  rewrite (Z.mul_comm n), div_round_exact by lia.
  apply numeric_round2_hundred, select_div_scale_nonneg.
Qed.

Lemma v_score_defined (owned total : Z) :
  0 < total -> exists s, v_score owned total = Some s.
Proof.
  intros Ht. unfold v_score, NULLIF.
  destruct (total =? 0) eqn:E; [apply Z.eqb_eq in E; lia|].
  eexists; reflexivity.
Qed.

(** The expression on a few operands: 3/6, 1/3, 2/3 and 0/6 owned. *)
Example v_score_samples :
  v_score 3 6 = Some 5000 /\ v_score 1 3 = Some 3333 /\
  v_score 2 3 = Some 6667 /\ v_score 0 6 = Some 0 /\ v_score 0 0 = None.
Proof. vm_compute. repeat split. Qed.

(** ** Membership in the clauses of the view *)

Lemma left_join_user_pantry_Some db rc p up :
  In (Some up) (left_join_user_pantry db rc p) <->
  In up (user_pantry db) /\
  rc_ingredient_id rc = up_ingredient_id up /\ p_id p = up_user_id up.
Proof.
  unfold left_join_user_pantry.
  set (c := fun up0 => _ && _).
  assert (Hc : forall x, In x (filter c (user_pantry db)) <->
                         In x (user_pantry db) /\
                         rc_ingredient_id rc = up_ingredient_id x /\
                         p_id p = up_user_id x).
  { intros x. rewrite filter_In. subst c. cbv beta.
    rewrite andb_true_iff, !N.eqb_eq. tauto. }
  destruct (filter c (user_pantry db)) as [|y ys] eqn:E.
  - split.
    + intros [H|[]]; discriminate.
    + intros H. apply Hc in H. destruct H.
  - rewrite <- Hc. rewrite in_map_iff. split.
    + intros (x & Hx & Hin). injection Hx as ->. exact Hin.
    + intros H. exists up. auto.
Qed.

Lemma from_clause_In db j :
  In j (from_clause db) <->
  In (fr_r j) (recipes db) /\
  In (fr_rc j) (recipe_components db) /\
  r_id (fr_r j) = rc_recipe_id (fr_rc j) /\
  In (fr_i j) (ingredients db) /\
  rc_ingredient_id (fr_rc j) = i_id (fr_i j) /\
  In (fr_p j) (profiles db) /\
  In (fr_up j) (left_join_user_pantry db (fr_rc j) (fr_p j)).
Proof.
  unfold from_clause. split.
  - intros H.
    apply in_flat_map in H as (r & Hr & H).
    apply in_flat_map in H as (rc & Hrc & H).
    apply in_flat_map in H as (i & Hi & H).
    apply in_flat_map in H as (p & Hp & H).
    apply in_map_iff in H as (oup & <- & Hup).
    apply filter_In in Hrc as [Hrc Erc]. apply filter_In in Hi as [Hi Ei].
    apply N.eqb_eq in Erc, Ei. cbn. tauto.
  - destruct j as [r rc i p oup]. cbn.
    intros (Hr & Hrc & Erc & Hi & Ei & Hp & Hup).
    apply in_flat_map. exists r. split; [exact Hr|].
    apply in_flat_map. exists rc. split; [apply filter_In; split; [exact Hrc|now apply N.eqb_eq]|].
    apply in_flat_map. exists i. split; [apply filter_In; split; [exact Hi|now apply N.eqb_eq]|].
    apply in_flat_map. exists p. split; [exact Hp|].
    apply in_map. exact Hup.
Qed.

(** A joined row whose pantry side is present carries the ingredient of its
    component and the id of its profile on that side. *)
Lemma from_clause_pantry_side db j u :
  In j (from_clause db) -> up_user_id_of j = Some u ->
  up_ingredient_id_of j = Some (rc_ingredient_id (fr_rc j)) /\ p_id (fr_p j) = u.
Proof.
  intros Hj Hu. apply from_clause_In in Hj.
  destruct Hj as (_ & _ & _ & _ & _ & _ & Hup).
  unfold up_user_id_of, up_ingredient_id_of in *.
  destruct (fr_up j) as [up|]; [|discriminate].
  apply left_join_user_pantry_Some in Hup as (_ & Ei & Ep).
  cbn in *. injection Hu as <-. split; congruence.
Qed.

Lemma group_key_eqb_eq x y : group_key_eqb x y = true <-> x = y.
Proof.
  unfold group_key_eqb. destruct (group_key_eq_dec x y); split; congruence.
Qed.

Lemma group_of_In db k j :
  In j (group_of db k) <->
  In j (from_clause db) /\ where_clause db j = true /\ key_of j = k.
Proof.
  unfold group_of, grouped_rows. rewrite !filter_In, group_key_eqb_eq. tauto.
Qed.

Lemma count_rc_ingredient_pos g : g <> [] -> 0 < count_rc_ingredient g.
Proof.
  destruct g as [|j g]; [congruence|]. intros _.
  unfold count_rc_ingredient, count_distinct.
  set (l := nodup _ _).
  assert (Hin : In (rc_ingredient_id (fr_rc j)) l).
  { subst l. apply nodup_In. cbn. left. reflexivity. }
  destruct l; [destruct Hin|]. cbn [List.length]. lia.
Qed.

(** Every row of the view is the select list over the group of some key,
    and that group is not empty. *)
Lemma recipe_recommendations_inv db row :
  In row (recipe_recommendations db) ->
  exists k, row = select_list (k, group_of db k) /\ group_of db k <> [].
Proof.
  unfold recipe_recommendations, group_by. intros H.
  apply in_map_iff in H as (kg & <- & H).
  apply filter_In in H as [H _].
  apply in_map_iff in H as (k & <- & Hk).
  exists k. split; [reflexivity|].
  apply nodup_In in Hk. apply in_map_iff in Hk as (j & Ej & Hj).
  intros E.
  assert (Hin : In j (group_of db k)).
  { unfold group_of. apply filter_In. split; [exact Hj|now apply group_key_eqb_eq]. }
  rewrite E in Hin. destruct Hin.
Qed.

(** Conversely, every joined row that passes the WHERE clause puts the row
    of its group into the view. *)
Lemma recipe_recommendations_intro db j :
  In j (from_clause db) -> where_clause db j = true ->
  In (select_list (key_of j, group_of db (key_of j))) (recipe_recommendations db).
Proof.
  intros Hj Hw.
  assert (Hg : In j (group_of db (key_of j))) by (apply group_of_In; auto).
  unfold recipe_recommendations. apply in_map.
  apply filter_In. split.
  - unfold group_by.
    apply (in_map (fun k => (k, filter (fun j0 => group_key_eqb (key_of j0) k)
                                       (filter (where_clause db) (from_clause db))))).
    apply nodup_In, in_map, filter_In. auto.
  - unfold having. cbn [snd]. apply Z.ltb_lt, count_rc_ingredient_pos.
    intros E. fold (grouped_rows db) in E. fold (group_of db (key_of j)) in E.
    rewrite E in Hg. destruct Hg.
Qed.

(** ** The rows a user id selects *)

Lemma eq_user_id_true u row : eq_user_id u row = true <-> user_id row = Some u.
Proof.
  unfold eq_user_id. destruct (user_id row) as [v|].
  - rewrite N.eqb_eq. split; congruence.
  - split; discriminate.
Qed.

Lemma filter_none {A : Type} (f : A -> bool) (l : list A) :
  (forall x, In x l -> f x = false) -> filter f l = [].
Proof.
  induction l as [|x l IH]; [reflexivity|]. intros H. cbn.
  rewrite (H x (or_introl eq_refl)). apply IH. intros y Hy. apply H. now right.
Qed.

(** In the group of a key whose [up.user_id] is not NULL every row has its
    pantry side present, so both counts run over the same ingredients, the
    score is 100.00 and the FILTER of [missing_ingredients] passes no row. *)
Lemma user_group_fully_owned db r u :
  group_of db (r, Some u) <> [] ->
  count_up_ingredient (group_of db (r, Some u)) = count_rc_ingredient (group_of db (r, Some u)) /\
  v_score (count_up_ingredient (group_of db (r, Some u)))
          (count_rc_ingredient (group_of db (r, Some u))) = Some 10000 /\
  missing_ingredients_agg (group_of db (r, Some u)) = None.
Proof.
  intros Hne. set (g := group_of db (r, Some u)) in *.
  assert (Hside : forall j, In j g ->
            up_ingredient_id_of j = Some (rc_ingredient_id (fr_rc j))).
  { intros j Hj. apply group_of_In in Hj as (Hf & _ & Hk).
    unfold key_of in Hk. injection Hk as _ Hu.
    apply (from_clause_pantry_side db j u Hf Hu). }
  assert (Hcount : count_up_ingredient g = count_rc_ingredient g).
  { unfold count_up_ingredient, count_rc_ingredient. f_equal.
    apply map_ext_in. exact Hside. }
  split; [exact Hcount|]. split.
  - rewrite Hcount. apply v_score_all_owned, count_rc_ingredient_pos, Hne.
  - unfold missing_ingredients_agg.
    replace (filter _ g) with (@nil from_row); [reflexivity|].
    symmetry. apply filter_none.
    intros j Hj. rewrite (Hside j Hj). reflexivity.
Qed.

Lemma user_row_fully_owned db row u :
  In row (recipe_recommendations db) -> user_id row = Some u ->
  owned_ingredients row = total_ingredients row /\
  rec_v_score row = Some 10000 /\
  missing_ingredients row = None.
Proof.
  intros Hrow Hu.
  apply recipe_recommendations_inv in Hrow as ([r ou] & -> & Hne).
  cbn in Hu. subst ou. cbn. apply user_group_fully_owned, Hne.
Qed.

(** ** ORDER BY *)

Lemma insert_desc_perm row l : Permutation (row :: l) (insert_desc row l).
Proof.
  induction l as [|h t IH]; cbn.
  - apply Permutation_refl.
  - destruct (v_score_desc (rec_v_score row) (rec_v_score h)).
    + apply Permutation_refl.
    + eapply perm_trans; [apply perm_swap|]. apply perm_skip, IH.
Qed.

Lemma order_by_v_score_desc_perm l : Permutation l (order_by_v_score_desc l).
Proof.
  induction l as [|x l IH]; cbn.
  - apply perm_nil.
  - eapply perm_trans; [apply perm_skip, IH|]. apply insert_desc_perm.
Qed.

Lemma v_score_desc_total a b : v_score_desc a b = false -> v_score_desc b a = true.
Proof.
  destruct a as [x|], b as [y|]; cbn; try congruence.
  intros H. apply Z.leb_gt in H. apply Z.leb_le. lia.
Qed.

Lemma desc_order_trans a b c : desc_order a b -> desc_order b c -> desc_order a c.
Proof.
  unfold desc_order.
  destruct (rec_v_score a) as [x|], (rec_v_score b) as [y|], (rec_v_score c) as [z|];
    cbn; try congruence.
  rewrite !Z.leb_le. lia.
Qed.

Lemma insert_desc_sorted row l :
  Sorted desc_order l -> Sorted desc_order (insert_desc row l).
Proof.
  induction 1 as [|h t Hs IH Hhd]; cbn.
  - constructor; constructor.
  - destruct (v_score_desc (rec_v_score row) (rec_v_score h)) eqn:E.
    + constructor; [constructor; assumption|]. constructor. exact E.
    + constructor; [exact IH|].
      apply v_score_desc_total in E.
      destruct t as [|h' t']; cbn.
      * constructor. exact E.
      * destruct (v_score_desc (rec_v_score row) (rec_v_score h')).
        -- constructor. exact E.
        -- constructor. inversion Hhd. assumption.
Qed.

Lemma order_by_v_score_desc_sorted l : StronglySorted desc_order (order_by_v_score_desc l).
Proof.
  apply Sorted_StronglySorted; [exact desc_order_trans|].
  induction l as [|x l IH]; cbn.
  - constructor.
  - apply insert_desc_sorted, IH.
Qed.

Lemma fetchRecommendations_In db u row :
  In row (fetchRecommendations db u) <->
  In row (recipe_recommendations db) /\ user_id row = Some u.
Proof.
  unfold fetchRecommendations. rewrite <- eq_user_id_true, <- filter_In.
  split; apply Permutation_in;
    [apply Permutation_sym|]; apply order_by_v_score_desc_perm.
Qed.

(** Every row of the view stems from a joined row that passed the WHERE
    clause and carries its recipe and its [up.user_id]. *)
Lemma recipe_recommendations_source db row :
  In row (recipe_recommendations db) ->
  exists j, In j (from_clause db) /\ where_clause db j = true /\
            id row = r_id (fr_r j) /\ user_id row = up_user_id_of j.
Proof.
  intros H. apply recipe_recommendations_inv in H as (k & -> & Hne).
  destruct (group_of db k) as [|j g] eqn:E; [congruence|].
  assert (Hj : In j (group_of db k)) by (rewrite E; now left).
  apply group_of_In in Hj as (Hf & Hw & Hk).
  exists j. subst k. cbn. auto.
Qed.

Lemma nil_of_no_member {A : Type} (l : list A) : (forall x, ~ In x l) -> l = [].
Proof.
  destruct l as [|x l]; [reflexivity|]. intros H. destruct (H x). now left.
Qed.

(** ** Claims *)

(** C5. Every row of the view whose [user_id] is not NULL has
    [owned_ingredients] equal to [total_ingredients], a [v_score] of 100.00
    and a NULL [missing_ingredients]: the view groups by the pantry side
    [up.user_id], so the joined rows of ingredients the user does not own
    (NULL [up.user_id]) never fall into the group of that user. *)
Theorem per_user_rows_always_fully_owned (db : database) (row : recommendation) (u : uuid) :
  In row (recipe_recommendations db) ->
  user_id row = Some u ->
  owned_ingredients row = total_ingredients row /\
  rec_v_score row = Some 10000 /\
  missing_ingredients row = None.
Proof. apply user_row_fully_owned. Qed.

(** C6. A recipe without any row in [recipe_components] has no row in the
    view, and so none in the output of any user. *)
Theorem zero_requirement_recipe_absent (db : database) (rid : uuid) :
  (forall rc, In rc (recipe_components db) -> rc_recipe_id rc <> rid) ->
  (forall row, In row (recipe_recommendations db) -> id row <> rid) /\
  (forall u row, In row (fetchRecommendations db u) -> id row <> rid).
Proof.
  intros Hnone.
  assert (Hview : forall row, In row (recipe_recommendations db) -> id row <> rid).
  { intros row Hrow.
    apply recipe_recommendations_source in Hrow as (j & Hj & _ & Hid & _).
    apply from_clause_In in Hj as (_ & Hrc & Erc & _).
    rewrite Hid, Erc. apply Hnone, Hrc. }
  split; [exact Hview|].
  intros u row Hrow. apply fetchRecommendations_In in Hrow as [Hrow _].
  apply Hview, Hrow.
Qed.

(** C7. On every row the view emits the denominator
    [COUNT(DISTINCT rc.ingredient_id)] is positive: [NULLIF(total, 0)] returns
    the count itself and [v_score] is not NULL. *)
Theorem v_score_denominator_positive (db : database) (row : recommendation) :
  In row (recipe_recommendations db) ->
  0 < total_ingredients row /\
  NULLIF (total_ingredients row) 0 = Some (total_ingredients row) /\
  rec_v_score row = v_score (owned_ingredients row) (total_ingredients row) /\
  exists s, rec_v_score row = Some s.
Proof.
  intros H. apply recipe_recommendations_inv in H as (k & -> & Hne). cbn.
  pose proof (count_rc_ingredient_pos _ Hne) as Hpos.
  split; [exact Hpos|]. split; [|split].
  - unfold NULLIF. destruct (_ =? 0) eqn:E; [apply Z.eqb_eq in E; lia|reflexivity].
  - reflexivity.
  - apply v_score_defined, Hpos.
Qed.

(** The sort at work on rows of different scores. *)
Example order_by_v_score_desc_sample :
  map rec_v_score
      (order_by_v_score_desc
         (map (fun v => mk_recommendation omelette_id "Omelette" None None None None None
                          None (Some alice) v None 6 0)
              [Some 3333; Some 10000; None; Some 0; Some 6667])) =
  [None; Some 10000; Some 6667; Some 3333; Some 0].
Proof. vm_compute. reflexivity. Qed.

(** C8, as amended. Whatever rows the view holds, the query hands over the
    rows with the user's [user_id] in descending order of [v_score], NULL
    first; so the list of [fetchRecommendations] is one the query may
    return.  Nothing is said of the order among rows of equal score. *)
Theorem query_sorted_by_descending_v_score
    (rows : list recommendation) (db : database) (u : uuid) :
  ordered_by_v_score_desc (filter (eq_user_id u) rows)
                          (order_by_v_score_desc (filter (eq_user_id u) rows)) /\
  may_fetch db u (fetchRecommendations db u).
Proof.
  assert (H : forall l, ordered_by_v_score_desc l (order_by_v_score_desc l)).
  { intros l. split.
    - apply order_by_v_score_desc_perm.
    - apply order_by_v_score_desc_sorted. }
  split; apply H.
Qed.

(** C8, as stated, fails: with two dishes listed for the user, both at
    100.00, the query may return them in either order, and one of the two
    is not the order in which the view lists them. *)
Lemma tie_order_is_not_fixed :
  ~ (forall output, may_fetch two_dish_db alice output ->
                    ties_keep_view_order two_dish_db alice output).
Proof.
  intros H.
  specialize (H (rev (filter (eq_user_id alice) (recipe_recommendations two_dish_db)))).
  assert (Hmay : may_fetch two_dish_db alice
                   (rev (filter (eq_user_id alice) (recipe_recommendations two_dish_db)))).
  { split; [apply Permutation_rev|].
    vm_compute. repeat constructor. }
  specialize (H Hmay (Some 10000)). vm_compute in H. discriminate H.
Qed.

(** C10. A user id that belongs to no profile selects no row of the view. *)
Theorem unknown_user_empty_result (db : database) (u : uuid) :
  (forall p, In p (profiles db) -> p_id p <> u) ->
  fetchRecommendations db u = [].
Proof.
  intros Hnone. apply nil_of_no_member. intros row Hrow.
  apply fetchRecommendations_In in Hrow as [Hrow Hu].
  apply recipe_recommendations_source in Hrow as (j & Hj & _ & _ & Huj).
  rewrite Hu in Huj. symmetry in Huj.
  destruct (from_clause_pantry_side db j u Hj Huj) as [_ Hp].
  apply from_clause_In in Hj as (_ & _ & _ & _ & _ & Hin & _).
  apply (Hnone _ Hin Hp).
Qed.

(** ** Adding a pantry row *)

Lemma addToPantry_tables db new db' :
  addToPantry db new = Some db' ->
  profiles db' = profiles db /\ ingredients db' = ingredients db /\
  recipes db' = recipes db /\ recipe_components db' = recipe_components db /\
  user_restrictions db' = user_restrictions db /\
  user_pantry db' = user_pantry db ++ [new].
Proof.
  unfold addToPantry. destruct (pantry_has _ _ _); [discriminate|].
  intros H. injection H as <-. cbn. repeat split.
Qed.

(** A joined row with its pantry side present is still joined, and still
    passes the WHERE clause, after a row is added to [user_pantry]. *)
Lemma addToPantry_keeps_owned_rows db new db' j u :
  addToPantry db new = Some db' ->
  In j (from_clause db) -> where_clause db j = true -> up_user_id_of j = Some u ->
  In j (from_clause db') /\ where_clause db' j = true.
Proof.
  intros Hadd Hj Hw Hu.
  apply addToPantry_tables in Hadd as (Ep & Ei & Er & Erc & Eur & Eup).
  split.
  - apply from_clause_In in Hj as (Hr & Hrc & E1 & Hi & E2 & Hp & Hup).
    apply from_clause_In. rewrite Ep, Ei, Er, Erc. repeat (split; [assumption|]).
    unfold up_user_id_of in Hu. destruct (fr_up j) as [up|]; [|discriminate].
    apply left_join_user_pantry_Some in Hup as (Hin & E3 & E4).
    apply left_join_user_pantry_Some. rewrite Eup.
    repeat split; try assumption. apply in_or_app. now left.
  - unfold where_clause in *. rewrite Eur. exact Hw.
Qed.

(** C9. When a user adds to the pantry an ingredient a recipe requires, a
    recipe listed for that user before is still listed after, and with a
    [v_score] that is not lower. *)
Theorem pantry_addition_never_lowers_v_score
    (db db' : database) (new : user_pantry_row) (row : recommendation) :
  addToPantry db new = Some db' ->
  (exists rc, In rc (recipe_components db) /\
              rc_recipe_id rc = id row /\
              rc_ingredient_id rc = up_ingredient_id new) ->
  In row (fetchRecommendations db (up_user_id new)) ->
  (exists row', In row' (fetchRecommendations db' (up_user_id new)) /\
                id row' = id row) /\
  (forall row', In row' (fetchRecommendations db' (up_user_id new)) ->
                id row' = id row ->
                score_le (rec_v_score row) (rec_v_score row')).
Proof.
  intros Hadd _ Hrow. set (u := up_user_id new) in *.
  apply fetchRecommendations_In in Hrow as [Hrow Hu].
  destruct (user_row_fully_owned db row u Hrow Hu) as (_ & Hscore & _).
  split.
  - apply recipe_recommendations_inv in Hrow as ([r ou] & -> & Hne).
    cbn in Hu. subst ou.
    destruct (group_of db (r, Some u)) as [|j g] eqn:E; [congruence|].
    assert (Hj : In j (group_of db (r, Some u))) by (rewrite E; now left).
    apply group_of_In in Hj as (Hf & Hw & Hk).
    assert (Huj : up_user_id_of j = Some u) by (unfold key_of in Hk; congruence).
    destruct (addToPantry_keeps_owned_rows db new db' j u Hadd Hf Hw Huj) as [Hf' Hw'].
    exists (select_list (key_of j, group_of db' (key_of j))). split.
    + apply fetchRecommendations_In. split.
      * apply recipe_recommendations_intro; assumption.
      * cbn. exact Huj.
    + cbn. unfold key_of in Hk. congruence.
  - intros row' Hrow' _.
    apply fetchRecommendations_In in Hrow' as [Hrow' Hu'].
    destruct (user_row_fully_owned db' row' u Hrow' Hu') as (_ & Hscore' & _).
    rewrite Hscore, Hscore'. cbn. lia.
Qed.

(** ** The view on the sample data *)

(** C1. In the omelette scenario the row of the user reports
    [total_ingredients = 3], although the recipe requires six distinct
    ingredients: the count runs over the owned ingredients only. *)
Theorem omelette_total_counts_owned_only :
  List.length (requirement_set omelette_db omelette_id) = 6%nat /\
  restricted_in omelette_db alice omelette_id = [] /\
  map (fun row => (id row, owned_ingredients row, total_ingredients row))
      (fetchRecommendations omelette_db alice) = [(omelette_id, 3, 3)].
Proof. vm_compute. repeat split. Qed.

(** C2. With Eggs restricted as an allergy the omelette, which requires
    Eggs, is still listed for the user: the WHERE clause removes the joined
    row of Eggs, not the recipe. *)
Theorem restricted_recipe_still_listed :
  restricted_in omelette_allergy_db alice omelette_id = [eggs] /\
  map (fun row => (id row, owned_ingredients row, total_ingredients row, rec_v_score row))
      (fetchRecommendations omelette_allergy_db alice) = [(omelette_id, 2, 2, Some 10000)].
Proof. vm_compute. repeat split. Qed.

(** C3. The omelette scenario yields one row, with [owned_ingredients = 3],
    [total_ingredients = 3], [v_score = 100.00] and a NULL
    [missing_ingredients]. *)
Theorem omelette_scenario_row :
  fetchRecommendations omelette_db alice = [alice_omelette_row].
Proof. vm_compute. reflexivity. Qed.

(** C4. A user with an empty pantry and no restrictions is shown no recipe,
    although the omelette has six requirements. *)
Theorem empty_pantry_empty_output :
  user_pantry empty_pantry_db = [] /\
  user_restrictions empty_pantry_db = [] /\
  List.length (requirement_set empty_pantry_db omelette_id) = 6%nat /\
  fetchRecommendations empty_pantry_db alice = [].
Proof. vm_compute. repeat split. Qed.

(** The rows of missing ingredients sit in the group of the NULL
    [up.user_id]: with an empty pantry the view holds that one row for the
    omelette, which no user id selects. *)
Example empty_pantry_null_group :
  map (fun row => (user_id row, owned_ingredients row, total_ingredients row,
                   rec_v_score row, missing_ingredients row))
      (recipe_recommendations empty_pantry_db) =
  [(None, 0, 6, Some 0,
    Some [Some "Eggs"%string; Some "Cheese"%string; Some "Milk"%string;
          Some "Butter"%string; Some "Salt"%string; Some "Pepper"%string])].
Proof. vm_compute. reflexivity. Qed.

(** ** Instances *)

Lemma per_user_rows_always_fully_owned_witness :
  owned_ingredients alice_omelette_row = total_ingredients alice_omelette_row /\
  rec_v_score alice_omelette_row = Some 10000 /\
  missing_ingredients alice_omelette_row = None.
Proof.
  apply (per_user_rows_always_fully_owned omelette_db alice_omelette_row alice).
  - vm_compute. left. reflexivity.
  - reflexivity.
Defined.

Lemma zero_requirement_recipe_absent_witness :
  (forall row, In row (recipe_recommendations two_recipe_db) -> id row <> water_id) /\
  (forall u row, In row (fetchRecommendations two_recipe_db u) -> id row <> water_id).
Proof.
  apply (zero_requirement_recipe_absent two_recipe_db water_id).
  intros rc H. cbn in H.
  repeat (destruct H as [<-|H]; [discriminate|]). destruct H.
Defined.

Lemma v_score_denominator_positive_witness :
  0 < total_ingredients alice_omelette_row /\
  NULLIF (total_ingredients alice_omelette_row) 0 = Some (total_ingredients alice_omelette_row) /\
  rec_v_score alice_omelette_row =
    v_score (owned_ingredients alice_omelette_row) (total_ingredients alice_omelette_row) /\
  exists s, rec_v_score alice_omelette_row = Some s.
Proof.
  apply (v_score_denominator_positive omelette_db alice_omelette_row).
  vm_compute. left. reflexivity.
Defined.

Lemma unknown_user_empty_result_witness :
  fetchRecommendations omelette_db 999%N = [].
Proof.
  apply (unknown_user_empty_result omelette_db 999%N).
  intros p H. cbn in H. destruct H as [<-|H]; [discriminate|destruct H].
Defined.

Lemma pantry_addition_never_lowers_v_score_witness :
  addToPantry omelette_db alice_butter = Some omelette_butter_db /\
  (exists row', In row' (fetchRecommendations omelette_butter_db alice) /\
                id row' = omelette_id) /\
  (forall row', In row' (fetchRecommendations omelette_butter_db alice) ->
                id row' = omelette_id ->
                score_le (Some 10000) (rec_v_score row')).
Proof.
  split; [reflexivity|].
  apply (pantry_addition_never_lowers_v_score
           omelette_db omelette_butter_db alice_butter alice_omelette_row).
  - reflexivity.
  - exists (mk_component 14%N omelette_id butter 100 (Some "tbsp"%string)).
    split; [|split; reflexivity].
    cbn. right. right. right. left. reflexivity.
  - vm_compute. left. reflexivity.
Defined.

(** * Further properties of the view *)

(** ** Range of the score expression *)

Lemma div_round_mono (a a' b : Z) : 0 < b -> a <= a' -> div_round a b <= div_round a' b.
Proof. intros Hb Ha. unfold div_round. apply Z.div_le_mono; lia. Qed.

Lemma div_round_zero (b : Z) : 0 < b -> div_round 0 b = 0.
Proof. intros Hb. unfold div_round. apply Z.div_small. lia. Qed.

Lemma numeric_round2_mono (s x y : Z) :
  0 <= s -> x <= y -> numeric_round2 (mk_numeric x s) <= numeric_round2 (mk_numeric y s).
Proof.
  intros Hs Hxy. unfold numeric_round2. cbn [dscale unscaled].
  destruct (s <=? 2) eqn:E.
  - apply Z.mul_le_mono_nonneg_r; [|exact Hxy]. apply Z.pow_nonneg. lia.
  - apply div_round_mono; [|exact Hxy]. apply Z.leb_gt in E.
    apply Z.pow_pos_nonneg; lia.
Qed.

Lemma numeric_round2_zero (s : Z) : 0 <= s -> numeric_round2 (mk_numeric 0 s) = 0.
Proof.
  intros Hs. unfold numeric_round2. cbn [dscale unscaled].
  destruct (s <=? 2) eqn:E; [reflexivity|].
  apply Z.leb_gt in E. apply div_round_zero, Z.pow_pos_nonneg; lia.
Qed.

Lemma v_score_none_owned (n : Z) : 0 < n -> v_score 0 n = Some 0.
Proof.
  intros Hn. unfold v_score, NULLIF.
  destruct (n =? 0) eqn:E; [apply Z.eqb_eq in E; lia|].
  f_equal. unfold numeric_div, numeric_mul_int. cbn [dscale unscaled].
  rewrite Z.mul_0_l, div_round_zero by lia. cbn [Z.mul].
  apply numeric_round2_zero, select_div_scale_nonneg.
Qed.

(** X1. For counts [0 <= owned <= total] with [total > 0] the score
    expression is defined and lies between 0.00 and 100.00, through both
    roundings. *)
Theorem v_score_range (owned total : Z) :
  0 <= owned <= total -> 0 < total ->
  exists s, v_score owned total = Some s /\ 0 <= s <= 10000.
Proof.
  intros [Ho Hot] Ht. unfold v_score, NULLIF.
  destruct (total =? 0) eqn:E; [apply Z.eqb_eq in E; lia|].
  eexists. split; [reflexivity|].
  unfold numeric_div, numeric_mul_int. cbn [dscale unscaled].
  set (s := select_div_scale owned total).
  assert (Hs : 0 <= s) by apply select_div_scale_nonneg.
  assert (Hp : 0 < 10 ^ s) by (apply Z.pow_pos_nonneg; lia).
  set (q := div_round (owned * 10 ^ s) total).
  assert (Hq0 : 0 <= q).
  { unfold q. rewrite <- (div_round_zero total Ht).
    apply div_round_mono; [exact Ht|]. apply Z.mul_nonneg_nonneg; lia. }
  assert (Hq1 : q <= 10 ^ s).
  { unfold q. rewrite <- (div_round_exact (10 ^ s) total Ht) at 2.
    apply div_round_mono; [exact Ht|]. rewrite (Z.mul_comm (10 ^ s)).
    apply Z.mul_le_mono_nonneg_r; lia. }
  split.
  - rewrite <- (numeric_round2_zero s Hs). apply numeric_round2_mono; lia.
  - rewrite <- (numeric_round2_hundred s Hs). apply numeric_round2_mono; lia.
Qed.

Lemma v_score_range_witness :
  exists s, v_score 2 3 = Some s /\ 0 <= s <= 10000.
Proof. apply (v_score_range 2 3); lia. Defined.

(** ** The group of the NULL [up.user_id] *)

Lemma filter_all {A : Type} (f : A -> bool) (l : list A) :
  (forall x, In x l -> f x = true) -> filter f l = l.
Proof.
  induction l as [|x l IH]; [reflexivity|]. intros H. cbn.
  rewrite (H x (or_introl eq_refl)). f_equal. apply IH.
  intros y Hy. apply H. now right.
Qed.

Lemma non_null_all_null {A B : Type} (l : list B) :
  non_null (map (fun _ : B => @None A) l) = [].
Proof. induction l as [|x l IH]; [reflexivity|exact IH]. Qed.

Lemma non_null_all_some {A B : Type} (f : B -> A) (l : list B) :
  non_null (map (fun x => Some (f x)) l) = map f l.
Proof.
  induction l as [|x l IH]; [reflexivity|].
  cbn. unfold non_null in IH. rewrite IH. reflexivity.
Qed.

(** X2. A row of the view with a NULL [user_id] owns nothing: its
    [owned_ingredients] is 0, its [v_score] is 0.00 and its
    [missing_ingredients] is a non-empty array of ingredient names. *)
Theorem null_user_rows_own_nothing (db : database) (row : recommendation) :
  In row (recipe_recommendations db) ->
  user_id row = None ->
  owned_ingredients row = 0 /\
  rec_v_score row = Some 0 /\
  exists l, missing_ingredients row = Some l /\ l <> [] /\ ~ In None l.
Proof.
  intros Hrow Hu.
  apply recipe_recommendations_inv in Hrow as ([r ou] & -> & Hne).
  cbn in Hu. subst ou. cbn. set (g := group_of db (r, None)) in *.
  assert (Hnull : forall j, In j g -> up_ingredient_id_of j = None).
  { intros j Hj. apply group_of_In in Hj as (_ & _ & Hk).
    unfold key_of in Hk. injection Hk as _ Hk.
    unfold up_user_id_of, up_ingredient_id_of in *.
    destruct (fr_up j); [discriminate|reflexivity]. }
  assert (Hcount : count_up_ingredient g = 0).
  { unfold count_up_ingredient, count_distinct.
    rewrite (map_ext_in _ (fun _ => None) g Hnull), non_null_all_null.
    reflexivity. }
  split; [exact Hcount|]. split.
  - rewrite Hcount. apply v_score_none_owned, count_rc_ingredient_pos, Hne.
  - unfold missing_ingredients_agg.
    rewrite filter_all by (intros j Hj; rewrite (Hnull j Hj); reflexivity).
    rewrite (map_ext_in _ (fun j => Some (i_name (fr_i j))) g)
      by (intros j Hj; rewrite (Hnull j Hj); reflexivity).
    destruct g as [|j g']; [congruence|].
    cbn [map array_agg_distinct]. eexists. split; [reflexivity|]. split.
    + intros E.
      assert (Hin : In (Some (i_name (fr_i j)))
                       (nodup (option_eq_dec string_dec)
                              (Some (i_name (fr_i j)) :: map (fun j0 => Some (i_name (fr_i j0))) g')))
        by (apply nodup_In; now left).
      rewrite E in Hin. destruct Hin.
    + intros Hin. apply nodup_In in Hin.
      destruct Hin as [Hin|Hin]; [discriminate|].
      apply in_map_iff in Hin as (j0 & Hj0 & _). discriminate.
Qed.

Lemma null_user_rows_own_nothing_witness :
  exists row,
    In row (recipe_recommendations omelette_db) /\ user_id row = None /\
    owned_ingredients row = 0 /\ rec_v_score row = Some 0 /\
    exists l, missing_ingredients row = Some l /\ l <> [] /\ ~ In None l.
Proof.
  exists (mk_recommendation omelette_id "Omelette"
            (Some "Fluffy eggs with melted cheese"%string) None (Some 5) (Some 10) (Some 2)
            None None (Some 0)
            (Some [Some "Butter"%string; Some "Salt"%string; Some "Pepper"%string]) 3 0).
  assert (Hin : In (mk_recommendation omelette_id "Omelette"
            (Some "Fluffy eggs with melted cheese"%string) None (Some 5) (Some 10) (Some 2)
            None None (Some 0)
            (Some [Some "Butter"%string; Some "Salt"%string; Some "Pepper"%string]) 3 0)
            (recipe_recommendations omelette_db))
    by (vm_compute; right; left; reflexivity).
  split; [exact Hin|]. split; [reflexivity|].
  apply (null_user_rows_own_nothing omelette_db _ Hin). reflexivity.
Defined.

(** ** Which recipes are listed, and with which count *)

Lemma restricted_where db j :
  where_clause db j = negb (restricted db (p_id (fr_p j)) (rc_ingredient_id (fr_rc j))).
Proof. reflexivity. Qed.

Lemma pantry_has_true db u ing :
  pantry_has db u ing = true <->
  exists up, In up (user_pantry db) /\ up_user_id up = u /\ up_ingredient_id up = ing.
Proof.
  unfold pantry_has. rewrite existsb_exists. split.
  - intros (up & Hin & H). apply andb_true_iff in H as [H1 H2].
    apply N.eqb_eq in H1, H2. eauto.
  - intros (up & Hin & H1 & H2). exists up. split; [exact Hin|].
    apply andb_true_iff. split; now apply N.eqb_eq.
Qed.

(** The component of a joined row of a user's group is usable for that user. *)
Lemma owned_row_usable db j u :
  In j (from_clause db) -> where_clause db j = true -> up_user_id_of j = Some u ->
  In (fr_rc j) (usable_components db u (r_id (fr_r j))).
Proof.
  intros Hj Hw Hu.
  destruct (from_clause_pantry_side db j u Hj Hu) as [_ Hp].
  apply from_clause_In in Hj as (_ & Hrc & Erc & Hi & Ei & _ & Hup).
  unfold up_user_id_of in Hu. destruct (fr_up j) as [up|]; [|discriminate].
  cbn in Hu. injection Hu as Hu.
  apply left_join_user_pantry_Some in Hup as (Hin & Eing & _).
  unfold usable_components. apply filter_In. split; [exact Hrc|].
  rewrite Erc, N.eqb_refl. cbn [andb]. unfold usable_component.
  rewrite restricted_where, Hp in Hw. rewrite Hw.
  replace (pantry_has db u (rc_ingredient_id (fr_rc j))) with true
    by (symmetry; apply pantry_has_true; exists up; auto).
  replace (existsb _ (ingredients db)) with true; [reflexivity|].
  symmetry. apply existsb_exists. exists (fr_i j). split; [exact Hi|now apply N.eqb_eq].
Qed.

(** Conversely a usable component of a recipe row gives a joined row in the
    group of the user. *)
Lemma usable_row_exists db r p u rc :
  In r (recipes db) -> In p (profiles db) -> p_id p = u ->
  In rc (usable_components db u (r_id r)) ->
  exists j, In j (group_of db (r, Some u)) /\ fr_rc j = rc.
Proof.
  intros Hr Hp Ep Hrc. unfold usable_components in Hrc.
  apply filter_In in Hrc as [Hrc H].
  apply andb_true_iff in H as [Erc H]. apply N.eqb_eq in Erc.
  unfold usable_component in H.
  apply andb_true_iff in H as [H Hres]. apply andb_true_iff in H as [Hi Hhas].
  apply existsb_exists in Hi as (i & Hi & Ei). apply N.eqb_eq in Ei.
  apply pantry_has_true in Hhas as (up & Hup & Eu & Eing).
  exists (mk_from r rc i p (Some up)). split; [|reflexivity].
  apply group_of_In. split; [|split].
  - apply from_clause_In. cbn. repeat (split; [solve [auto]|]).
    apply left_join_user_pantry_Some. repeat split; congruence.
  - rewrite restricted_where. cbn. rewrite Ep. exact Hres.
  - unfold key_of, up_user_id_of. cbn. congruence.
Qed.

(** X3. A recipe id is listed for a user exactly when the recipe and the
    profile exist and the recipe has a component whose ingredient is in the
    catalog, in the user's pantry and not among the user's restrictions. *)
Theorem listed_iff_usable_component (db : database) (u rid : uuid) :
  (exists row, In row (fetchRecommendations db u) /\ id row = rid) <->
  listed_for db u rid = true.
Proof.
  unfold listed_for. split.
  - intros (row & Hrow & Hid).
    apply fetchRecommendations_In in Hrow as [Hrow Hu].
    apply recipe_recommendations_source in Hrow as (j & Hj & Hw & Eid & Euj).
    rewrite Hu in Euj. symmetry in Euj.
    pose proof (owned_row_usable db j u Hj Hw Euj) as Huse.
    destruct (from_clause_pantry_side db j u Hj Euj) as [_ Hp].
    apply from_clause_In in Hj as (Hr & _ & _ & _ & _ & Hpin & _).
    rewrite <- Eid, Hid in Huse.
    apply andb_true_iff. split; [apply andb_true_iff; split|].
    + apply existsb_exists. exists (fr_r j). split; [exact Hr|].
      apply N.eqb_eq. congruence.
    + apply existsb_exists. exists (fr_p j). split; [exact Hpin|now apply N.eqb_eq].
    + destruct (usable_components db u rid); [destruct Huse|reflexivity].
  - intros H. apply andb_true_iff in H as [H Hne]. apply andb_true_iff in H as [Hr Hp].
    apply existsb_exists in Hr as (r & Hr & Er). apply N.eqb_eq in Er.
    apply existsb_exists in Hp as (p & Hp & Ep). apply N.eqb_eq in Ep.
    destruct (usable_components db u rid) as [|rc l] eqn:E; [discriminate|].
    assert (Hrc : In rc (usable_components db u (r_id r))) by (rewrite Er, E; now left).
    destruct (usable_row_exists db r p u rc Hr Hp Ep Hrc) as (j & Hj & _).
    apply group_of_In in Hj as (Hf & Hw & Hk).
    exists (select_list (key_of j, group_of db (key_of j))). split.
    + apply fetchRecommendations_In. split.
      * apply recipe_recommendations_intro; assumption.
      * cbn. unfold key_of in Hk. congruence.
    + cbn. unfold key_of in Hk. congruence.
Qed.

Lemma same_elements_nodup_length (l1 l2 : list uuid) :
  (forall x, In x l1 <-> In x l2) ->
  List.length (nodup N.eq_dec l1) = List.length (nodup N.eq_dec l2).
Proof.
  intros H. apply Permutation_length, NoDup_Permutation; try apply NoDup_nodup.
  intros x. rewrite !nodup_In. apply H.
Qed.

(** X4. The two counts of a listed row are the number of distinct
    ingredients among the usable components of its recipe: required
    ingredients the user lacks or restricts are counted in neither. *)
Theorem listed_counts_usable_ingredients (db : database) (u : uuid) (row : recommendation) :
  In row (fetchRecommendations db u) ->
  owned_ingredients row =
    Z.of_nat (List.length (nodup N.eq_dec
                (map rc_ingredient_id (usable_components db u (id row))))) /\
  total_ingredients row = owned_ingredients row.
Proof.
  intros Hrow. apply fetchRecommendations_In in Hrow as [Hrow Hu].
  destruct (user_row_fully_owned db row u Hrow Hu) as (Heq & _ & _).
  split; [|congruence]. rewrite Heq.
  apply recipe_recommendations_inv in Hrow as ([r ou] & -> & Hne).
  cbn in Hu. subst ou. cbn. set (g := group_of db (r, Some u)) in *.
  unfold count_rc_ingredient, count_distinct. f_equal.
  rewrite (non_null_all_some (fun j => rc_ingredient_id (fr_rc j)) g).
  apply same_elements_nodup_length. intros x. rewrite !in_map_iff. split.
  - intros (j & <- & Hj). exists (fr_rc j). split; [reflexivity|].
    apply group_of_In in Hj as (Hf & Hw & Hk).
    unfold key_of in Hk. injection Hk as <- Hk.
    apply owned_row_usable; assumption.
  - intros (rc & <- & Hrc).
    destruct g as [|j0 g0] eqn:E; [congruence|].
    assert (Hj0 : In j0 (group_of db (r, Some u))) by (fold g; rewrite E; now left).
    apply group_of_In in Hj0 as (Hf0 & _ & Hk0).
    unfold key_of in Hk0. injection Hk0 as Er0 Hu0.
    destruct (from_clause_pantry_side db j0 u Hf0 Hu0) as [_ Hp0].
    apply from_clause_In in Hf0 as (Hr0 & _ & _ & _ & _ & Hpin0 & _).
    rewrite Er0 in Hr0.
    destruct (usable_row_exists db r (fr_p j0) u rc Hr0 Hpin0 Hp0 Hrc) as (j & Hj & Ej).
    exists j. split; [now rewrite Ej|]. fold g in Hj. rewrite E in Hj. exact Hj.
Qed.

Lemma listed_counts_usable_ingredients_witness :
  owned_ingredients alice_omelette_row =
    Z.of_nat (List.length (nodup N.eq_dec
                (map rc_ingredient_id (usable_components omelette_db alice omelette_id)))) /\
  total_ingredients alice_omelette_row = owned_ingredients alice_omelette_row.
Proof.
  apply (listed_counts_usable_ingredients omelette_db alice alice_omelette_row).
  vm_compute. left. reflexivity.
Defined.

(** ** The query under row-level security *)

Lemma filter_filter_and {A : Type} (f g : A -> bool) (l : list A) :
  filter f (filter g l) = filter (fun x => f x && g x) l.
Proof.
  induction l as [|x l IH]; [reflexivity|]. cbn.
  destruct (g x); cbn; [destruct (f x); cbn; now rewrite IH|].
  rewrite andb_false_r. exact IH.
Qed.

Lemma filter_swap {A : Type} (f g : A -> bool) (l : list A) :
  filter f (filter g l) = filter g (filter f l).
Proof.
  rewrite !filter_filter_and. apply filter_ext. intros x. apply andb_comm.
Qed.

Lemma filter_implied {A : Type} (f g : A -> bool) (l : list A) :
  (forall x, In x l -> f x = true -> g x = true) ->
  filter f (filter g l) = filter f l.
Proof.
  intros H. rewrite filter_filter_and. apply filter_ext_in. intros x Hx.
  destruct (f x) eqn:E; [|reflexivity]. now rewrite (H x Hx E).
Qed.

Lemma existsb_filter_implied {A : Type} (f g : A -> bool) (l : list A) :
  (forall x, f x = true -> g x = true) ->
  existsb f (filter g l) = existsb f l.
Proof.
  intros H. induction l as [|x l IH]; [reflexivity|]. cbn.
  destruct (g x) eqn:Eg; cbn; rewrite IH; [reflexivity|].
  destruct (f x) eqn:Ef; [|reflexivity]. rewrite (H x Ef) in Eg. discriminate.
Qed.

Lemma filter_flat_map {A B : Type} (f : B -> bool) (g : A -> list B) (l : list A) :
  filter f (flat_map g l) = flat_map (fun x => filter f (g x)) l.
Proof.
  induction l as [|x l IH]; [reflexivity|]. cbn. now rewrite filter_app, IH.
Qed.

Lemma flat_map_ext_in {A B : Type} (f g : A -> list B) (l : list A) :
  (forall x, In x l -> f x = g x) -> flat_map f l = flat_map g l.
Proof.
  induction l as [|x l IH]; [reflexivity|]. intros H. cbn.
  rewrite (H x (or_introl eq_refl)), IH; [reflexivity|].
  intros y Hy. apply H. now right.
Qed.

Lemma flat_map_filter_nil {A B : Type} (c : A -> bool) (f : A -> list B) (l : list A) :
  (forall x, c x = false -> f x = []) ->
  flat_map f (filter c l) = flat_map f l.
Proof.
  intros H. induction l as [|x l IH]; [reflexivity|]. cbn.
  destruct (c x) eqn:E; cbn; rewrite IH; [reflexivity|].
  now rewrite (H x E).
Qed.

Lemma filter_nodup {A : Type} (dec : forall x y : A, {x = y} + {x <> y})
    (f : A -> bool) (l : list A) :
  filter f (nodup dec l) = nodup dec (filter f l).
Proof.
  induction l as [|x l IH]; [reflexivity|]. cbn [nodup filter].
  destruct (f x) eqn:E.
  - cbn [nodup].
    destruct (in_dec dec x l) as [Hin|Hin]; destruct (in_dec dec x (filter f l)) as [Hin'|Hin'].
    + exact IH.
    + destruct Hin'. apply filter_In. auto.
    + destruct Hin. apply filter_In in Hin'. tauto.
    + cbn [filter]. rewrite E, IH. reflexivity.
  - destruct (in_dec dec x l); [exact IH|]. cbn [filter]. rewrite E. exact IH.
Qed.

(** The rows a user id selects from the view are the select list over the
    groups of that user's joined rows alone. *)
Lemma view_of_user_rows db u :
  filter (eq_user_id u) (recipe_recommendations db) =
  map select_list (filter having (group_by (user_rows db u))).
Proof.
  unfold recipe_recommendations. fold (grouped_rows db).
  rewrite filter_map_swap, filter_swap. do 2 f_equal.
  unfold group_by.
  rewrite filter_map_swap.
  change (fun a : group_key =>
            eq_user_id u (select_list (a, filter (fun j => group_key_eqb (key_of j) a)
                                                 (grouped_rows db))))
    with (fun a : group_key => match snd a with Some v => N.eqb v u | None => false end).
  rewrite filter_nodup, filter_map_swap.
  change (filter (fun a : from_row =>
                    match snd (key_of a) with Some v => N.eqb v u | None => false end)
                 (grouped_rows db))
    with (user_rows db u).
  apply map_ext_in. intros k Hk. f_equal.
  apply nodup_In in Hk. apply in_map_iff in Hk as (j0 & <- & Hj0).
  unfold user_rows in *. apply filter_In in Hj0 as [_ Hu0].
  rewrite filter_filter_and. apply filter_ext_in. intros j _.
  destruct (group_key_eqb (key_of j) (key_of j0)) eqn:E; [|reflexivity].
  apply group_key_eqb_eq in E. unfold of_user in *. unfold key_of in E.
  injection E as _ E. rewrite E, Hu0. reflexivity.
Qed.

(** One user's joined rows of a recipe, a component, an ingredient and a
    profile. *)
Lemma user_rows_unfold db u :
  user_rows db u =
  flat_map (fun r =>
    flat_map (fun rc =>
      flat_map (fun i =>
        flat_map (fun p =>
          filter (fun j => of_user u j && where_clause db j)
                 (map (mk_from r rc i p) (left_join_user_pantry db rc p)))
          (profiles db))
        (filter (fun i => N.eqb (rc_ingredient_id rc) (i_id i)) (ingredients db)))
      (filter (fun rc => N.eqb (r_id r) (rc_recipe_id rc)) (recipe_components db)))
    (recipes db).
Proof.
  unfold user_rows, grouped_rows, from_clause.
  rewrite filter_filter_and, filter_flat_map. apply flat_map_ext. intros r.
  rewrite filter_flat_map. apply flat_map_ext. intros rc.
  rewrite filter_flat_map. apply flat_map_ext. intros i.
  rewrite filter_flat_map. reflexivity.
Qed.

Lemma left_join_user_pantry_own db u rc p :
  p_id p = u ->
  left_join_user_pantry (own_rows db u) rc p = left_join_user_pantry db rc p.
Proof.
  intros Ep. unfold left_join_user_pantry, own_rows. cbn [user_pantry].
  rewrite filter_implied; [reflexivity|].
  intros up _ H. apply andb_true_iff in H as [_ H]. apply N.eqb_eq in H.
  apply N.eqb_eq. congruence.
Qed.

Lemma where_clause_own db u j :
  p_id (fr_p j) = u -> where_clause (own_rows db u) j = where_clause db j.
Proof.
  intros Ep. unfold where_clause, own_rows. cbn [user_restrictions]. f_equal.
  apply existsb_filter_implied.
  intros ur H. apply andb_true_iff in H as [H _]. apply N.eqb_eq in H.
  apply N.eqb_eq. congruence.
Qed.

Lemma user_rows_own db u : user_rows (own_rows db u) u = user_rows db u.
Proof.
  rewrite !user_rows_unfold. cbn [own_rows recipes recipe_components ingredients profiles].
  apply flat_map_ext. intros r. apply flat_map_ext. intros rc.
  apply flat_map_ext. intros i.
  rewrite <- (flat_map_filter_nil (fun p => N.eqb (p_id p) u) _ (profiles db)).
  - apply flat_map_ext_in. intros p Hp. apply filter_In in Hp as [_ Ep].
    apply N.eqb_eq in Ep. rewrite left_join_user_pantry_own by exact Ep.
    apply filter_ext_in. intros j Hj. apply in_map_iff in Hj as (oup & <- & _).
    f_equal. apply where_clause_own. exact Ep.
  - intros p Ep. apply N.eqb_neq in Ep. apply filter_none.
    intros j Hj. apply in_map_iff in Hj as (oup & <- & Hin).
    unfold of_user, up_user_id_of. cbn [fr_up].
    destruct oup as [up|]; [|reflexivity]. cbn [option_map].
    apply left_join_user_pantry_Some in Hin as (_ & _ & Epu).
    replace (N.eqb (up_user_id up) u) with false; [reflexivity|].
    symmetry. apply N.eqb_neq. congruence.
Qed.

(** X5. The rows a user gets, and their order, depend only on the catalog
    and on the user's own profile, pantry and restriction rows: the query
    gives the same list on the whole database and on the rows the row-level
    security policies let that user read. *)
Theorem fetchRecommendations_own_rows (db : database) (u : uuid) :
  fetchRecommendations (own_rows db u) u = fetchRecommendations db u.
Proof.
  unfold fetchRecommendations. rewrite !view_of_user_rows, user_rows_own. reflexivity.
Qed.

(** * The pantry page *)

Lemma NoDup_map_filter {A B : Type} (f : A -> B) (c : A -> bool) (l : list A) :
  NoDup (map f l) -> NoDup (map f (filter c l)).
Proof.
  induction l as [|a l IH]; cbn; intros H; [constructor|].
  inversion H as [|? ? Hnin Hnd]; subst.
  destruct (c a); cbn; [constructor|]; auto.
  intros Hin. apply Hnin. apply in_map_iff in Hin as (x & Ex & Hx).
  apply filter_In in Hx as [Hx _]. apply in_map_iff. eauto.
Qed.

Lemma NoDup_map_snoc {A B : Type} (f : A -> B) (l : list A) (x : A) :
  NoDup (map f l) -> ~ In (f x) (map f l) -> NoDup (map f (l ++ [x])).
Proof.
  intros Hnd Hnin. rewrite map_app. apply NoDup_app; [exact Hnd| |].
  - cbn. constructor; [intros []|constructor].
  - intros a Ha [<-|[]]. contradiction.
Qed.

Lemma existsb_false_forall {A : Type} (f : A -> bool) (l : list A) :
  existsb f l = false -> forall x, In x l -> f x = false.
Proof.
  intros H x Hx. destruct (f x) eqn:E; [|reflexivity].
  rewrite <- H. symmetry. apply existsb_exists. eauto.
Qed.

Lemma set_user_pantry_same db : set_user_pantry db (user_pantry db) = db.
Proof. destruct db. reflexivity. Qed.

Lemma set_user_restrictions_same db : set_user_restrictions db (user_restrictions db) = db.
Proof. destruct db. reflexivity. Qed.

Lemma auth_uid_is_true auth u : auth_uid_is auth u = true <-> auth = Some u.
Proof.
  unfold auth_uid_is. destruct auth as [a|]; [|split; discriminate].
  rewrite N.eqb_eq. split; congruence.
Qed.

(** What a successful insert into [user_pantry] has checked and done. *)
Lemma insert_user_pantry_inv auth db row db' :
  insert_user_pantry auth db row = Some db' ->
  auth = Some (up_user_id row) /\
  ~ In (up_id row) (map up_id (user_pantry db)) /\
  In (up_user_id row) (map p_id (profiles db)) /\
  In (up_ingredient_id row) (map i_id (ingredients db)) /\
  pantry_has db (up_user_id row) (up_ingredient_id row) = false /\
  db' = set_user_pantry db (user_pantry db ++ [row]).
Proof.
  unfold insert_user_pantry.
  destruct (_ && _) eqn:E; [|discriminate].
  apply andb_true_iff in E as [E Hing]. apply andb_true_iff in E as [E Hprof].
  apply andb_true_iff in E as [E _]. apply andb_true_iff in E as [Hauth Hpk].
  unfold addToPantry. destruct (pantry_has _ _ _) eqn:Ehas; [discriminate|].
  intros Hdb. injection Hdb as <-.
  split; [now apply auth_uid_is_true|]. split; [|split; [|split; [|split]]].
  - intros Hin. apply in_map_iff in Hin as (x & Ex & Hx).
    apply negb_true_iff in Hpk.
    pose proof (existsb_false_forall _ _ Hpk x Hx) as Hf. cbn in Hf.
    apply N.eqb_neq in Hf. congruence.
  - apply existsb_exists in Hprof as (p & Hp & Ep). apply N.eqb_eq in Ep.
    apply in_map_iff. eauto.
  - apply existsb_exists in Hing as (i & Hi & Ei). apply N.eqb_eq in Ei.
    apply in_map_iff. eauto.
  - reflexivity.
  - reflexivity.
Qed.

Lemma pantry_has_false_pair db u ing :
  pantry_has db u ing = false ->
  ~ In (u, ing) (map (fun up => (up_user_id up, up_ingredient_id up)) (user_pantry db)).
Proof.
  intros H Hin. apply in_map_iff in Hin as (up & E & Hup). injection E as E1 E2.
  assert (Ht : pantry_has db u ing = true) by (apply pantry_has_true; eauto).
  congruence.
Qed.

Lemma insert_user_pantry_ok auth db row db' :
  user_pantry_ok db -> insert_user_pantry auth db row = Some db' -> user_pantry_ok db'.
Proof.
  intros (Hpk & Huq & Hfk) Hins.
  apply insert_user_pantry_inv in Hins as (_ & Hid & Hp & Hi & Hhas & ->).
  unfold user_pantry_ok, set_user_pantry. cbn. split; [|split].
  - apply NoDup_map_snoc; assumption.
  - apply NoDup_map_snoc; [assumption|]. apply pantry_has_false_pair, Hhas.
  - intros up Hup. apply in_app_iff in Hup as [Hup|[<-|[]]]; auto.
Qed.

Lemma delete_user_pantry_ok auth db itemId :
  user_pantry_ok db -> user_pantry_ok (delete_user_pantry auth db itemId).
Proof.
  intros (Hpk & Huq & Hfk). unfold user_pantry_ok, delete_user_pantry, set_user_pantry.
  cbn. split; [|split]; try (apply NoDup_map_filter; assumption).
  intros up Hup. apply filter_In in Hup as [Hup _]. auto.
Qed.

(** X6. The two handlers of the pantry page keep the constraints of
    [user_pantry]: unique row ids, at most one row per user and ingredient,
    and every row referencing a profile and a catalog ingredient. *)
Theorem pantry_page_keeps_constraints
    (auth : option uuid) (new_id itemId : uuid) (selectedIngredient : option uuid)
    (quantity : option decimal2) (unit : string) (st : Pantry.page) :
  user_pantry_ok (fst st) ->
  user_pantry_ok (fst (Pantry.addToPantry auth new_id selectedIngredient quantity unit st)) /\
  user_pantry_ok (fst (Pantry.removeFromPantry auth itemId st)).
Proof.
  intros Hok. split.
  - unfold Pantry.addToPantry.
    destruct selectedIngredient as [ing|]; [|exact Hok].
    destruct auth as [user|]; [|exact Hok].
    destruct (insert_user_pantry _ _ _) as [db'|] eqn:E; [|exact Hok].
    cbn. eapply insert_user_pantry_ok; eassumption.
  - cbn. apply delete_user_pantry_ok, Hok.
Qed.

Lemma pantry_page_keeps_constraints_witness :
  user_pantry_ok
    (fst (Pantry.addToPantry (Some alice) 24%N (Some butter) (Some 100) "tbsp"
            (omelette_db, []))) /\
  user_pantry_ok (fst (Pantry.removeFromPantry (Some alice) 21%N (omelette_db, []))).
Proof.
  apply (pantry_page_keeps_constraints (Some alice) 24%N 21%N (Some butter) (Some 100)
           "tbsp" (omelette_db, [])).
  unfold user_pantry_ok. cbn. split; [|split].
  - repeat constructor; cbn; intuition discriminate.
  - repeat constructor; cbn; intuition discriminate.
  - intros up H. repeat (destruct H as [<-|H]; [cbn; tauto|]). destruct H.
Defined.

(** The list the page would fetch after a delete is the old list without
    the item. *)
Lemma fetchPantryItems_delete auth db itemId userId :
  Pantry.fetchPantryItems auth (delete_user_pantry auth db itemId) userId =
  filter (fun item => negb (N.eqb (Pantry.id item) itemId))
         (Pantry.fetchPantryItems auth db userId).
Proof.
  unfold Pantry.fetchPantryItems, delete_user_pantry, set_user_pantry.
  cbn [user_pantry]. rewrite filter_map_swap.
  change (Pantry.format _) with (Pantry.format db). f_equal.
  rewrite !filter_filter_and. apply filter_ext. intros up. cbn.
  destruct (N.eqb (up_user_id up) userId), (auth_uid_is auth (up_user_id up)),
    (N.eqb (up_id up) itemId); reflexivity.
Qed.

(** X7. If [pantryItems] is what the server holds for the signed-in user,
    it still is after [addToPantry] and after [removeFromPantry]: the local
    filter of the removal agrees with fetching again. *)
Theorem pantry_page_stays_in_sync
    (user new_id itemId : uuid) (selectedIngredient : option uuid)
    (quantity : option decimal2) (unit : string) (st : Pantry.page) :
  snd st = Pantry.fetchPantryItems (Some user) (fst st) user ->
  (let st' := Pantry.addToPantry (Some user) new_id selectedIngredient quantity unit st in
   snd st' = Pantry.fetchPantryItems (Some user) (fst st') user) /\
  (let st' := Pantry.removeFromPantry (Some user) itemId st in
   snd st' = Pantry.fetchPantryItems (Some user) (fst st') user).
Proof.
  intros Hsync. split.
  - unfold Pantry.addToPantry.
    destruct selectedIngredient as [ing|]; [|exact Hsync].
    destruct (insert_user_pantry _ _ _) as [db'|]; [reflexivity|exact Hsync].
  - cbv zeta. unfold Pantry.removeFromPantry. cbn [fst snd].
    rewrite fetchPantryItems_delete, <- Hsync. reflexivity.
Qed.

Lemma pantry_page_stays_in_sync_witness :
  (let st' := Pantry.addToPantry (Some alice) 24%N (Some butter) (Some 100) "tbsp"
                (omelette_db, Pantry.fetchPantryItems (Some alice) omelette_db alice) in
   snd st' = Pantry.fetchPantryItems (Some alice) (fst st') alice) /\
  (let st' := Pantry.removeFromPantry (Some alice) 21%N
                (omelette_db, Pantry.fetchPantryItems (Some alice) omelette_db alice) in
   snd st' = Pantry.fetchPantryItems (Some alice) (fst st') alice).
Proof.
  apply (pantry_page_stays_in_sync alice 24%N 21%N (Some butter) (Some 100) "tbsp"
           (omelette_db, Pantry.fetchPantryItems (Some alice) omelette_db alice)).
  reflexivity.
Defined.

(** X8. After a successful insert the user's list holds the items it held
    before and the new row, formatted: [quantity] NULL as 0, the name of the
    catalog ingredient, an empty category as null. *)
Theorem inserted_item_is_fetched
    (user : uuid) (db db' : database) (row : user_pantry_row) (item : Pantry.PantryItem) :
  insert_user_pantry (Some user) db row = Some db' ->
  In item (Pantry.fetchPantryItems (Some user) db' user) <->
  In item (Pantry.fetchPantryItems (Some user) db user) \/ item = Pantry.format db row.
Proof.
  intros Hins. apply insert_user_pantry_inv in Hins as (Hauth & _ & _ & _ & _ & ->).
  injection Hauth as Hu.
  unfold Pantry.fetchPantryItems, set_user_pantry. cbn [user_pantry].
  change (Pantry.format _) with (Pantry.format db).
  rewrite !filter_app, map_app, in_app_iff. cbn [filter auth_uid_is].
  subst user. rewrite N.eqb_refl. cbn [filter]. rewrite N.eqb_refl. cbn.
  intuition congruence.
Qed.

Lemma inserted_item_is_fetched_witness :
  In (Pantry.format omelette_db alice_butter)
     (Pantry.fetchPantryItems (Some alice) omelette_butter_db alice).
Proof.
  apply (inserted_item_is_fetched alice omelette_db omelette_butter_db alice_butter).
  - reflexivity.
  - right. reflexivity.
Defined.

Lemma delete_fresh_id auth db itemId :
  ~ In itemId (map up_id (user_pantry db)) -> delete_user_pantry auth db itemId = db.
Proof.
  intros Hfresh. unfold delete_user_pantry.
  rewrite filter_all; [apply set_user_pantry_same|].
  intros up Hup. apply negb_true_iff, andb_false_iff. left.
  apply N.eqb_neq. intros E. apply Hfresh. apply in_map_iff. eauto.
Qed.

Lemma delete_inserted auth db row db' :
  insert_user_pantry auth db row = Some db' ->
  delete_user_pantry auth db' (up_id row) = db.
Proof.
  intros Hins. apply insert_user_pantry_inv in Hins as (Hauth & Hid & _ & _ & _ & ->).
  unfold delete_user_pantry, set_user_pantry. cbn.
  rewrite filter_app. cbn [filter].
  rewrite N.eqb_refl, (proj2 (auth_uid_is_true auth (up_user_id row)) Hauth). cbn.
  rewrite app_nil_r, filter_all; [destruct db; reflexivity|].
  intros up Hup. apply negb_true_iff, andb_false_iff. left.
  apply N.eqb_neq. intros E. apply Hid. apply in_map_iff. eauto.
Qed.

(** X9. With a row id not yet in the table, adding an ingredient and
    removing the new item again gives back the page as it was, the database
    and the list, whether or not the insert went through. *)
Theorem add_then_remove_restores_page
    (user new_id : uuid) (selectedIngredient : option uuid)
    (quantity : option decimal2) (unit : string) (st : Pantry.page) :
  ~ In new_id (map up_id (user_pantry (fst st))) ->
  snd st = Pantry.fetchPantryItems (Some user) (fst st) user ->
  Pantry.removeFromPantry (Some user) new_id
    (Pantry.addToPantry (Some user) new_id selectedIngredient quantity unit st) = st.
Proof.
  intros Hfresh Hsync. destruct st as [db items]. cbn [fst snd] in *.
  assert (Hsame : Pantry.removeFromPantry (Some user) new_id (db, items) = (db, items)).
  { unfold Pantry.removeFromPantry. cbn [fst snd].
    rewrite Hsync, <- fetchPantryItems_delete, delete_fresh_id by exact Hfresh.
    reflexivity. }
  unfold Pantry.addToPantry. cbn [fst snd].
  destruct selectedIngredient as [ing|]; [|exact Hsame].
  destruct (insert_user_pantry _ _ _) as [db'|] eqn:E; [|exact Hsame].
  unfold Pantry.removeFromPantry. cbn [fst snd].
  rewrite <- fetchPantryItems_delete.
  pose proof (delete_inserted _ _ _ _ E) as Hdel. cbn [up_id] in Hdel.
  rewrite Hdel, Hsync. reflexivity.
Qed.

Lemma add_then_remove_restores_page_witness :
  Pantry.removeFromPantry (Some alice) 24%N
    (Pantry.addToPantry (Some alice) 24%N (Some butter) (Some 100) "tbsp"
       (omelette_db, Pantry.fetchPantryItems (Some alice) omelette_db alice))
  = (omelette_db, Pantry.fetchPantryItems (Some alice) omelette_db alice).
Proof.
  apply (add_then_remove_restores_page alice 24%N (Some butter) (Some 100) "tbsp"
           (omelette_db, Pantry.fetchPantryItems (Some alice) omelette_db alice)).
  - cbn. intuition discriminate.
  - reflexivity.
Defined.

(** * Writes and the list of recommendations *)

Lemma lists_iff db u rid :
  lists db u rid <->
  (exists r, In r (recipes db) /\ r_id r = rid) /\
  (exists p, In p (profiles db) /\ p_id p = u) /\
  exists rc, In rc (usable_components db u rid).
Proof.
  unfold lists. rewrite listed_iff_usable_component. unfold listed_for.
  rewrite !andb_true_iff, !existsb_exists. split.
  - intros [[(r & Hr & Er) (p & Hp & Ep)] Hne].
    apply N.eqb_eq in Er, Ep. split; [eauto|]. split; [eauto|].
    destruct (usable_components db u rid) as [|rc l]; [discriminate|].
    exists rc. now left.
  - intros [(r & Hr & Er) [(p & Hp & Ep) (rc & Hrc)]].
    split; [split|].
    + exists r. split; [exact Hr|now apply N.eqb_eq].
    + exists p. split; [exact Hp|now apply N.eqb_eq].
    + destruct (usable_components db u rid); [destruct Hrc|reflexivity].
Qed.

Lemma usable_components_In db u rid rc :
  In rc (usable_components db u rid) <->
  In rc (recipe_components db) /\ rc_recipe_id rc = rid /\
  (exists i, In i (ingredients db) /\ rc_ingredient_id rc = i_id i) /\
  pantry_has db u (rc_ingredient_id rc) = true /\
  restricted db u (rc_ingredient_id rc) = false.
Proof.
  unfold usable_components, usable_component.
  rewrite filter_In, !andb_true_iff, N.eqb_eq, negb_true_iff, existsb_exists.
  split.
  - intros (Hrc & Erc & ((i & Hi & Ei) & Hhas) & Hres).
    apply N.eqb_eq in Ei. eauto 8.
  - intros (Hrc & Erc & (i & Hi & Ei) & Hhas & Hres).
    repeat split; try assumption. exists i. split; [exact Hi|now apply N.eqb_eq].
Qed.

(** What a successful insert into [user_restrictions] has checked and done. *)
Lemma insert_user_restrictions_inv auth db row db' :
  insert_user_restrictions auth db row = Some db' ->
  auth = Some (ur_user_id row) /\
  ~ In (ur_id row) (map ur_id (user_restrictions db)) /\
  In (ur_user_id row) (map p_id (profiles db)) /\
  In (ur_ingredient_id row) (map i_id (ingredients db)) /\
  restricted db (ur_user_id row) (ur_ingredient_id row) = false /\
  db' = set_user_restrictions db (user_restrictions db ++ [row]).
Proof.
  unfold insert_user_restrictions.
  destruct (_ && _) eqn:E; [|discriminate].
  apply andb_true_iff in E as [E Huq]. apply andb_true_iff in E as [E Hing].
  apply andb_true_iff in E as [E Hprof]. apply andb_true_iff in E as [Hauth Hpk].
  intros Hdb. injection Hdb as <-.
  split; [now apply auth_uid_is_true|]. split; [|split; [|split; [|split]]].
  - intros Hin. apply in_map_iff in Hin as (x & Ex & Hx).
    apply negb_true_iff in Hpk.
    pose proof (existsb_false_forall _ _ Hpk x Hx) as Hf. cbn in Hf.
    apply N.eqb_neq in Hf. congruence.
  - apply existsb_exists in Hprof as (p & Hp & Ep). apply N.eqb_eq in Ep.
    apply in_map_iff. eauto.
  - apply existsb_exists in Hing as (i & Hi & Ei). apply N.eqb_eq in Ei.
    apply in_map_iff. eauto.
  - now apply negb_true_iff.
  - reflexivity.
Qed.

(** X10. The exact effect of a new restriction on the user's list: a
    recipe is listed afterwards exactly when it was listed before and has a
    usable component other than the restricted ingredient. *)
Theorem restriction_removes_only_through_its_ingredient
    (auth : option uuid) (db db' : database) (row : user_restrictions_row) (rid : uuid) :
  insert_user_restrictions auth db row = Some db' ->
  lists db' (ur_user_id row) rid <->
  lists db (ur_user_id row) rid /\
  exists rc, In rc (usable_components db (ur_user_id row) rid) /\
             rc_ingredient_id rc <> ur_ingredient_id row.
Proof.
  intros Hins. apply insert_user_restrictions_inv in Hins as (_ & _ & _ & _ & _ & ->).
  set (u := ur_user_id row). set (ing := ur_ingredient_id row).
  assert (Huse : forall rc, In rc (usable_components (set_user_restrictions db
                                      (user_restrictions db ++ [row])) u rid) <->
                            In rc (usable_components db u rid) /\ rc_ingredient_id rc <> ing).
  { intros rc. rewrite !usable_components_In. unfold set_user_restrictions.
    cbn [recipe_components ingredients].
    assert (Hres : restricted (set_user_restrictions db (user_restrictions db ++ [row])) u
                              (rc_ingredient_id rc) =
                   restricted db u (rc_ingredient_id rc) || N.eqb ing (rc_ingredient_id rc)).
    { unfold restricted, set_user_restrictions. cbn [user_restrictions].
      rewrite existsb_app. cbn [existsb]. fold u ing.
      rewrite N.eqb_refl, orb_false_r. reflexivity. }
    unfold set_user_restrictions in Hres. rewrite Hres.
    change (pantry_has _ u (rc_ingredient_id rc)) with (pantry_has db u (rc_ingredient_id rc)).
    rewrite orb_false_iff, N.eqb_neq. intuition congruence. }
  rewrite !lists_iff. cbn [set_user_restrictions recipes profiles]. split.
  - intros (Hr & Hp & rc & Hrc). apply Huse in Hrc as [Hrc Hne]. eauto 10.
  - intros [(Hr & Hp & _) (rc & Hrc & Hne)].
    split; [exact Hr|]. split; [exact Hp|]. exists rc. apply Huse. auto.
Qed.

Lemma restriction_removes_only_through_its_ingredient_witness :
  lists omelette_allergy_db alice omelette_id <->
  lists omelette_db alice omelette_id /\
  exists rc, In rc (usable_components omelette_db alice omelette_id) /\
             rc_ingredient_id rc <> eggs.
Proof.
  apply (restriction_removes_only_through_its_ingredient (Some alice) omelette_db
           omelette_allergy_db (mk_restriction 31%N alice eggs allergy None) omelette_id).
  reflexivity.
Defined.

(** X11. The exact effect of a new pantry row on the user's list: a recipe
    is listed afterwards exactly when it was listed before, or it is in the
    catalog, requires the new ingredient and the user does not restrict it. *)
Theorem pantry_row_adds_only_through_its_ingredient
    (auth : option uuid) (db db' : database) (row : user_pantry_row) (rid : uuid) :
  insert_user_pantry auth db row = Some db' ->
  lists db' (up_user_id row) rid <->
  lists db (up_user_id row) rid \/
  ((exists r, In r (recipes db) /\ r_id r = rid) /\
   (exists rc, In rc (recipe_components db) /\ rc_recipe_id rc = rid /\
               rc_ingredient_id rc = up_ingredient_id row) /\
   restricted db (up_user_id row) (up_ingredient_id row) = false).
Proof.
  intros Hins.
  apply insert_user_pantry_inv in Hins as (_ & _ & Hprof & Hing & _ & ->).
  set (u := up_user_id row) in *. set (ing := up_ingredient_id row) in *.
  apply in_map_iff in Hprof as (p & Ep & Hp).
  apply in_map_iff in Hing as (i & Ei & Hi).
  assert (Hhas : forall x, pantry_has (set_user_pantry db (user_pantry db ++ [row])) u x =
                           pantry_has db u x || N.eqb ing x).
  { intros x. unfold pantry_has, set_user_pantry. cbn [user_pantry].
    rewrite existsb_app. cbn [existsb]. fold u ing.
    rewrite N.eqb_refl, orb_false_r. reflexivity. }
  assert (Huse : forall rc, In rc (usable_components (set_user_pantry db
                                      (user_pantry db ++ [row])) u rid) <->
                            In rc (usable_components db u rid) \/
                            (In rc (recipe_components db) /\ rc_recipe_id rc = rid /\
                             rc_ingredient_id rc = ing /\ restricted db u ing = false)).
  { intros rc. rewrite !usable_components_In.
    cbn [set_user_pantry recipe_components ingredients].
    change (restricted (set_user_pantry db (user_pantry db ++ [row])) u (rc_ingredient_id rc))
      with (restricted db u (rc_ingredient_id rc)).
    rewrite Hhas, orb_true_iff, N.eqb_eq. split.
    - intros (Hrc & Erc & Hex & [Hh|Hh] & Hres); [left; auto|].
      right. rewrite <- Hh in Hres. auto.
    - intros [(Hrc & Erc & Hex & Hh & Hres)|(Hrc & Erc & Eing & Hres)]; [auto 10|].
      repeat split; try assumption.
      + exists i. split; [exact Hi|congruence].
      + right. congruence.
      + congruence. }
  rewrite !lists_iff. cbn [set_user_pantry recipes profiles]. split.
  - intros (Hr & Hpp & rc & Hrc). apply Huse in Hrc as [Hrc|(Hrc & Erc & Eing & Hres)].
    + left. eauto 10.
    + right. split; [exact Hr|]. split; [eauto|exact Hres].
  - intros [(Hr & Hpp & rc & Hrc)|(Hr & (rc & Hrc & Erc & Eing) & Hres)].
    + split; [exact Hr|]. split; [exact Hpp|]. exists rc. apply Huse. now left.
    + split; [exact Hr|]. split; [eauto|]. exists rc. apply Huse. right. auto.
Qed.

Lemma pantry_row_adds_only_through_its_ingredient_witness :
  lists omelette_butter_db alice omelette_id <->
  lists omelette_db alice omelette_id \/
  ((exists r, In r (recipes omelette_db) /\ r_id r = omelette_id) /\
   (exists rc, In rc (recipe_components omelette_db) /\ rc_recipe_id rc = omelette_id /\
               rc_ingredient_id rc = butter) /\
   restricted omelette_db alice butter = false).
Proof.
  apply (pantry_row_adds_only_through_its_ingredient (Some alice) omelette_db
           omelette_butter_db alice_butter omelette_id).
  reflexivity.
Defined.

Lemma fetchRecommendations_own_rows_eq db1 db2 u :
  own_rows db1 u = own_rows db2 u ->
  fetchRecommendations db1 u = fetchRecommendations db2 u.
Proof.
  intros E. rewrite <- (fetchRecommendations_own_rows db1), <- (fetchRecommendations_own_rows db2).
  now rewrite E.
Qed.

Lemma own_rows_set_user_pantry db l u :
  filter (fun up => N.eqb (up_user_id up) u) l =
  filter (fun up => N.eqb (up_user_id up) u) (user_pantry db) ->
  own_rows (set_user_pantry db l) u = own_rows db u.
Proof. intros E. unfold own_rows, set_user_pantry. cbn. now rewrite E. Qed.

Lemma own_rows_set_user_restrictions db l u :
  filter (fun ur => N.eqb (ur_user_id ur) u) l =
  filter (fun ur => N.eqb (ur_user_id ur) u) (user_restrictions db) ->
  own_rows (set_user_restrictions db l) u = own_rows db u.
Proof. intros E. unfold own_rows, set_user_restrictions. cbn. now rewrite E. Qed.

Lemma auth_uid_is_other v u x : v <> u -> N.eqb x u = true -> auth_uid_is (Some v) x = false.
Proof.
  intros Hne E. apply N.eqb_eq in E. subst x. cbn. now apply N.eqb_neq.
Qed.

Lemma insert_user_pantry_other v u db row db' :
  v <> u -> insert_user_pantry (Some v) db row = Some db' ->
  fetchRecommendations db' u = fetchRecommendations db u.
Proof.
  intros Hne Hins. apply insert_user_pantry_inv in Hins as (Hauth & _ & _ & _ & _ & ->).
  injection Hauth as Hv.
  apply fetchRecommendations_own_rows_eq, own_rows_set_user_pantry.
  rewrite filter_app. cbn [filter].
  replace (N.eqb (up_user_id row) u) with false; [apply app_nil_r|].
  symmetry. apply N.eqb_neq. congruence.
Qed.

Lemma delete_user_pantry_other v u db itemId :
  v <> u ->
  fetchRecommendations (delete_user_pantry (Some v) db itemId) u = fetchRecommendations db u.
Proof.
  intros Hne. apply fetchRecommendations_own_rows_eq, own_rows_set_user_pantry.
  apply filter_implied. intros up _ E.
  apply negb_true_iff, andb_false_iff. right. exact (auth_uid_is_other v u _ Hne E).
Qed.

Lemma insert_user_restrictions_other v u db row db' :
  v <> u -> insert_user_restrictions (Some v) db row = Some db' ->
  fetchRecommendations db' u = fetchRecommendations db u.
Proof.
  intros Hne Hins. apply insert_user_restrictions_inv in Hins as (Hauth & _ & _ & _ & _ & ->).
  injection Hauth as Hv.
  apply fetchRecommendations_own_rows_eq, own_rows_set_user_restrictions.
  rewrite filter_app. cbn [filter].
  replace (N.eqb (ur_user_id row) u) with false; [apply app_nil_r|].
  symmetry. apply N.eqb_neq. congruence.
Qed.

Lemma delete_user_restrictions_other v u db restrictionId :
  v <> u ->
  fetchRecommendations (delete_user_restrictions (Some v) db restrictionId) u =
  fetchRecommendations db u.
Proof.
  intros Hne. apply fetchRecommendations_own_rows_eq, own_rows_set_user_restrictions.
  apply filter_implied. intros ur _ E.
  apply negb_true_iff, andb_false_iff. right. exact (auth_uid_is_other v u _ Hne E).
Qed.

(** X12. Whatever a signed-in user does on the pantry page or on the
    restrictions page, with whatever ids and values, the list of
    recommendations of every other user stays the same: the policies let
    the four handlers touch only rows of the signed-in user. *)
Theorem handlers_leave_other_users_lists
    (v u : uuid) (db : database)
    (new_id itemId : uuid) (selectedIngredient : option uuid)
    (quantity : option decimal2) (unit notes : string) (restrictionType : RestrictionType)
    (pantryItems : list Pantry.PantryItem) (restrictions : list Restrictions.Restriction) :
  v <> u ->
  fetchRecommendations
    (fst (Pantry.addToPantry (Some v) new_id selectedIngredient quantity unit
            (db, pantryItems))) u = fetchRecommendations db u /\
  fetchRecommendations
    (fst (Pantry.removeFromPantry (Some v) itemId (db, pantryItems))) u
    = fetchRecommendations db u /\
  fetchRecommendations
    (fst (Restrictions.addRestriction (Some v) new_id selectedIngredient restrictionType
            notes (db, restrictions))) u = fetchRecommendations db u /\
  fetchRecommendations
    (fst (Restrictions.removeRestriction (Some v) itemId (db, restrictions))) u
    = fetchRecommendations db u.
Proof.
  intros Hne. split; [|split; [|split]].
  - unfold Pantry.addToPantry. cbn [fst].
    destruct selectedIngredient as [ing|]; [|reflexivity].
    destruct (insert_user_pantry _ _ _) as [db'|] eqn:E; [|reflexivity].
    cbn [fst]. eapply insert_user_pantry_other; eassumption.
  - cbn [Pantry.removeFromPantry fst]. apply delete_user_pantry_other, Hne.
  - unfold Restrictions.addRestriction. cbn [fst].
    destruct selectedIngredient as [ing|]; [|reflexivity].
    destruct (insert_user_restrictions _ _ _) as [db'|] eqn:E; [|reflexivity].
    cbn [fst]. eapply insert_user_restrictions_other; eassumption.
  - cbn [Restrictions.removeRestriction fst]. apply delete_user_restrictions_other, Hne.
Qed.

Lemma handlers_leave_other_users_lists_witness :
  (user_pantry (fst (Pantry.addToPantry (Some bob) 24%N (Some butter) (Some 100) "tbsp"
                       (two_user_db, [])))
     = user_pantry two_user_db ++ [mk_pantry 24%N bob butter (Some 100) (Some "tbsp"%string)] /\
   user_pantry (fst (Pantry.removeFromPantry (Some bob) 25%N (two_user_db, [])))
     = alice_pantry /\
   user_restrictions (fst (Restrictions.addRestriction (Some bob) 24%N (Some butter) allergy
                             "" (two_user_db, [])))
     = user_restrictions two_user_db ++ [mk_restriction 24%N bob butter allergy None] /\
   user_restrictions (fst (Restrictions.removeRestriction (Some bob) 25%N (two_user_db, [])))
     = []) /\
  fetchRecommendations two_user_db alice = [alice_omelette_row] /\
  fetchRecommendations
    (fst (Pantry.addToPantry (Some bob) 24%N (Some butter) (Some 100) "tbsp"
            (two_user_db, []))) alice = fetchRecommendations two_user_db alice /\
  fetchRecommendations
    (fst (Pantry.removeFromPantry (Some bob) 25%N (two_user_db, []))) alice
    = fetchRecommendations two_user_db alice /\
  fetchRecommendations
    (fst (Restrictions.addRestriction (Some bob) 24%N (Some butter) allergy
            "" (two_user_db, []))) alice = fetchRecommendations two_user_db alice /\
  fetchRecommendations
    (fst (Restrictions.removeRestriction (Some bob) 25%N (two_user_db, []))) alice
    = fetchRecommendations two_user_db alice.
Proof.
  split; [repeat split|]. split; [vm_compute; reflexivity|].
  apply (handlers_leave_other_users_lists bob alice two_user_db 24%N 25%N (Some butter)
           (Some 100) "tbsp" "" allergy [] []).
  discriminate.
Defined.

(** X13. Deleting a pantry row never brings a recipe into the user's list,
    and deleting a restriction never takes one out. *)
Theorem deletes_are_monotone (auth : option uuid) (db : database) (u rid delId : uuid) :
  (lists (delete_user_pantry auth db delId) u rid -> lists db u rid) /\
  (lists db u rid -> lists (delete_user_restrictions auth db delId) u rid).
Proof.
  split; rewrite !lists_iff; intros (Hr & Hp & rc & Hrc);
    (split; [exact Hr|]); (split; [exact Hp|]); exists rc;
    apply usable_components_In; apply usable_components_In in Hrc;
    destruct Hrc as (Hin & Erc & Hex & Hhas & Hres);
    (split; [exact Hin|]); (split; [exact Erc|]); (split; [exact Hex|]).
  - split; [|exact Hres].
    apply pantry_has_true in Hhas as (up & Hup & Eu & Eing).
    apply filter_In in Hup as [Hup _]. apply pantry_has_true. eauto.
  - split; [exact Hhas|].
    unfold restricted in *. cbn [delete_user_restrictions set_user_restrictions user_restrictions].
    destruct (existsb _ (filter _ _)) eqn:E; [|reflexivity].
    apply existsb_exists in E as (ur & Hur & Eur).
    apply filter_In in Hur as [Hur _].
    rewrite <- Hres. symmetry. apply existsb_exists. eauto.
Qed.

(** * The restrictions page *)

Lemma restricted_false_pair db u ing :
  restricted db u ing = false ->
  ~ In (u, ing) (map (fun ur => (ur_user_id ur, ur_ingredient_id ur)) (user_restrictions db)).
Proof.
  intros H Hin. apply in_map_iff in Hin as (ur & E & Hur). injection E as E1 E2.
  pose proof (existsb_false_forall _ _ H ur Hur) as Hf. cbn in Hf.
  rewrite E1, E2, !N.eqb_refl in Hf. discriminate.
Qed.

Lemma fetchRestrictions_delete auth db restrictionId userId :
  Restrictions.fetchRestrictions auth (delete_user_restrictions auth db restrictionId) userId =
  filter (fun r => negb (N.eqb (Restrictions.id r) restrictionId))
         (Restrictions.fetchRestrictions auth db userId).
Proof.
  unfold Restrictions.fetchRestrictions, delete_user_restrictions, set_user_restrictions.
  cbn [user_restrictions]. rewrite filter_map_swap.
  change (Restrictions.format _) with (Restrictions.format db). f_equal.
  rewrite !filter_filter_and. apply filter_ext. intros ur. cbn.
  destruct (N.eqb (ur_user_id ur) userId), (auth_uid_is auth (ur_user_id ur)),
    (N.eqb (ur_id ur) restrictionId); reflexivity.
Qed.

(** X14. The two handlers of the restrictions page keep the constraints of
    [user_restrictions] and keep [restrictions] equal to what the server
    holds for the signed-in user. *)
Theorem restrictions_page_invariant
    (user new_id restrictionId : uuid) (selectedIngredient : option uuid)
    (restrictionType : RestrictionType) (notes : string) (st : Restrictions.page) :
  user_restrictions_ok (fst st) ->
  snd st = Restrictions.fetchRestrictions (Some user) (fst st) user ->
  (let st' := Restrictions.addRestriction (Some user) new_id selectedIngredient
                restrictionType notes st in
   user_restrictions_ok (fst st') /\
   snd st' = Restrictions.fetchRestrictions (Some user) (fst st') user) /\
  (let st' := Restrictions.removeRestriction (Some user) restrictionId st in
   user_restrictions_ok (fst st') /\
   snd st' = Restrictions.fetchRestrictions (Some user) (fst st') user).
Proof.
  intros Hok Hsync. split; cbv zeta.
  - unfold Restrictions.addRestriction.
    destruct selectedIngredient as [ing|]; [|split; assumption].
    destruct (insert_user_restrictions _ _ _) as [db'|] eqn:E; [|split; assumption].
    cbn [fst snd]. split; [|reflexivity].
    destruct Hok as (Hpk & Huq & Hfk).
    apply insert_user_restrictions_inv in E as (_ & Hid & Hp & Hi & Hres & ->).
    unfold user_restrictions_ok, set_user_restrictions. cbn. split; [|split].
    + apply NoDup_map_snoc; assumption.
    + apply NoDup_map_snoc; [assumption|]. apply restricted_false_pair, Hres.
    + intros ur Hur. apply in_app_iff in Hur as [Hur|[<-|[]]]; auto.
  - unfold Restrictions.removeRestriction. cbn [fst snd]. split.
    + destruct Hok as (Hpk & Huq & Hfk).
      unfold user_restrictions_ok, delete_user_restrictions, set_user_restrictions.
      cbn. split; [|split]; try (apply NoDup_map_filter; assumption).
      intros ur Hur. apply filter_In in Hur as [Hur _]. auto.
    + rewrite fetchRestrictions_delete, <- Hsync. reflexivity.
Qed.

Lemma restrictions_page_invariant_witness :
  (let st' := Restrictions.addRestriction (Some alice) 31%N (Some eggs) allergy "" 
                (omelette_db, []) in
   user_restrictions_ok (fst st') /\
   snd st' = Restrictions.fetchRestrictions (Some alice) (fst st') alice) /\
  (let st' := Restrictions.removeRestriction (Some alice) 31%N (omelette_db, []) in
   user_restrictions_ok (fst st') /\
   snd st' = Restrictions.fetchRestrictions (Some alice) (fst st') alice).
Proof.
  apply (restrictions_page_invariant alice 31%N 31%N (Some eggs) allergy "" (omelette_db, [])).
  - unfold user_restrictions_ok. cbn. split; [constructor|]. split; [constructor|].
    intros ur [].
  - reflexivity.
Defined.

(** * The recipe page and the cards *)

Lemma filter_unique_key {A : Type} (f : A -> uuid) (l : list A) (x : A) :
  NoDup (map f l) -> In x l -> filter (fun y => N.eqb (f y) (f x)) l = [x].
Proof.
  induction l as [|a l IH]; cbn; intros Hnd Hin; [destruct Hin|].
  inversion Hnd as [|? ? Hnin Hnd']; subst. destruct Hin as [->|Hin].
  - rewrite N.eqb_refl. f_equal. apply filter_none.
    intros y Hy. apply N.eqb_neq. intros E. apply Hnin. rewrite <- E. now apply in_map.
  - replace (N.eqb (f a) (f x)) with false; [now apply IH|].
    symmetry. apply N.eqb_neq. intros E. apply Hnin. rewrite E. now apply in_map.
Qed.

(** X15. With unique recipe ids, "View Recipe" on a card of the dashboard
    always finds the recipe: [fetchRecipe] returns the recipe row whose
    columns the card shows, with at least one component. *)
Theorem card_link_finds_recipe (db : database) (u : uuid) (row : recommendation) :
  NoDup (map r_id (recipes db)) ->
  In row (fetchRecommendations db u) ->
  exists recipe components,
    Recipe.fetchRecipe (Some u) db (id row) = (Some recipe, components) /\
    components <> [] /\
    r_id recipe = id row /\ r_title recipe = title row /\
    r_description recipe = description row /\
    r_prep_time recipe = prep_time row /\ r_cook_time recipe = cook_time row /\
    r_servings recipe = servings row /\ r_image_url recipe = image_url row.
Proof.
  intros Hpk Hrow. apply fetchRecommendations_In in Hrow as [Hrow _].
  apply recipe_recommendations_inv in Hrow as ([r ou] & -> & Hne).
  destruct (group_of db (r, ou)) as [|j g] eqn:E; [congruence|].
  assert (Hj : In j (group_of db (r, ou))) by (rewrite E; now left).
  apply group_of_In in Hj as (Hf & _ & Hk).
  unfold key_of in Hk. injection Hk as Er _.
  apply from_clause_In in Hf as (Hr & Hrc & Erc & _). rewrite Er in Hr, Erc.
  cbn [id title description prep_time cook_time servings image_url select_list fst snd].
  unfold Recipe.fetchRecipe. cbn [Recipe.authenticated].
  rewrite (filter_unique_key r_id (recipes db) r Hpk Hr).
  eexists _, _. split; [reflexivity|]. split; [|repeat split].
  intros Hnil. apply map_eq_nil in Hnil.
  assert (Hin : In (fr_rc j) (filter (fun c => N.eqb (rc_recipe_id c) (r_id r))
                                     (recipe_components db))).
  { apply filter_In. split; [exact Hrc|]. apply N.eqb_eq. congruence. }
  rewrite Hnil in Hin. destruct Hin.
Qed.

Lemma card_link_finds_recipe_witness :
  exists recipe components,
    Recipe.fetchRecipe (Some alice) omelette_db (id alice_omelette_row)
      = (Some recipe, components) /\
    components <> [] /\
    r_id recipe = id alice_omelette_row /\ r_title recipe = title alice_omelette_row /\
    r_description recipe = description alice_omelette_row /\
    r_prep_time recipe = prep_time alice_omelette_row /\
    r_cook_time recipe = cook_time alice_omelette_row /\
    r_servings recipe = servings alice_omelette_row /\
    r_image_url recipe = image_url alice_omelette_row.
Proof.
  apply (card_link_finds_recipe omelette_db alice alice_omelette_row).
  - cbn. repeat constructor. intros [].
  - vm_compute. left. reflexivity.
Defined.



(** A recipe that exists is rendered in detail, with its components. *)
Example known_recipe_renders_detail :
  exists components,
    Recipe.render (Recipe.checkAuthAndLoad (Some alice) omelette_db omelette_id Recipe.initial)
      = Recipe.detail omelette components /\ List.length components = 6%nat.
Proof. eexists. vm_compute. split; reflexivity. Qed.

(** X17. Every card of the dashboard shows a full progress bar and no
    "Missing:" block, whatever the pantry of the user. *)
Theorem cards_show_full_match (db : database) (u : uuid) (row : recommendation) :
  In row (fetchRecommendations db u) ->
  Dashboard.progress_value row = 10000 /\ Dashboard.missing_section row = None.
Proof.
  intros Hrow. apply fetchRecommendations_In in Hrow as [Hrow Hu].
  destruct (user_row_fully_owned db row u Hrow Hu) as (_ & Hscore & Hmiss).
  unfold Dashboard.progress_value, Dashboard.missing_section.
  rewrite Hscore, Hmiss. split; reflexivity.
Qed.

Lemma cards_show_full_match_witness :
  Dashboard.progress_value alice_omelette_row = 10000 /\
  Dashboard.missing_section alice_omelette_row = None.
Proof.
  apply (cards_show_full_match omelette_db alice alice_omelette_row).
  vm_compute. left. reflexivity.
Defined.

(** X18. When the "Missing:" block is rendered it shows at most three
    badges, the first ones of the array, and the "+n more" badge appears
    exactly when something is left over, with [n] the number left over. *)
Theorem missing_section_accounts_for_all
    (row : recommendation) (shown : list (option string)) (more : option Z) :
  Dashboard.missing_section row = Some (shown, more) ->
  exists l, missing_ingredients row = Some l /\ l <> [] /\
    shown = firstn 3 l /\ (List.length shown <= 3)%nat /\
    match more with
    | Some n => 0 < n /\ Z.of_nat (List.length shown) + n = Z.of_nat (List.length l)
    | None => shown = l
    end.
Proof.
  unfold Dashboard.missing_section.
  destruct (missing_ingredients row) as [l|]; [|discriminate].
  destruct (0 <? List.length l)%nat eqn:E0; [|discriminate].
  apply Nat.ltb_lt in E0. remember (firstn 3 l) as f eqn:Ef.
  intros H. injection H as <- <-.
  exists l. split; [reflexivity|]. split; [destruct l; cbn in E0; [lia|discriminate]|].
  split; [exact Ef|]. split; [rewrite Ef; apply firstn_le_length|].
  destruct (3 <? List.length l)%nat eqn:E3.
  - apply Nat.ltb_lt in E3. rewrite Ef, length_firstn. lia.
  - apply Nat.ltb_ge in E3. rewrite Ef. apply firstn_all2. exact E3.
Qed.

Lemma missing_section_accounts_for_all_witness :
  exists l,
    Some [Some "a"%string; Some "b"%string; Some "c"%string; Some "d"%string] = Some l /\
    l <> [] /\
    [Some "a"%string; Some "b"%string; Some "c"%string] = firstn 3 l /\
    (3 <= 3)%nat /\ 0 < 1 /\ 3 + 1 = Z.of_nat (List.length l).
Proof.
  apply (missing_section_accounts_for_all
           (mk_recommendation omelette_id "Omelette" None None None None None None None
              (Some 0)
              (Some [Some "a"%string; Some "b"%string; Some "c"%string; Some "d"%string])
              4 0)
           [Some "a"%string; Some "b"%string; Some "c"%string] (Some 1)).
  reflexivity.
Defined.

(** X19. The card and the recipe page agree on the total time whenever the
    page shows one; the card alone shows a time, the preparation time, when
    [cook_time] is null or 0. *)
Theorem total_time_card_and_page (recipe : recipes_row) (row : recommendation) (t : Z) :
  r_prep_time recipe = prep_time row ->
  r_cook_time recipe = cook_time row ->
  (Recipe.total_time recipe = element t -> Dashboard.total_time row = element t) /\
  (Dashboard.total_time row = element t ->
   Recipe.total_time recipe = element t \/
   (prep_time row = Some t /\ (cook_time row = None \/ cook_time row = Some 0))).
Proof.
  intros Ep Ec. unfold Recipe.total_time, Dashboard.total_time. rewrite Ep, Ec.
  destruct (prep_time row) as [[|p|p]|], (cook_time row) as [[|c|c]|];
    split; intros H; try discriminate; try (now left); try exact H;
    right; injection H as <-; (split; [f_equal; lia|auto]).
Qed.

Lemma total_time_card_and_page_witness :
  (Recipe.total_time omelette = element 15 ->
   Dashboard.total_time alice_omelette_row = element 15) /\
  (Dashboard.total_time alice_omelette_row = element 15 ->
   Recipe.total_time omelette = element 15 \/
   (prep_time alice_omelette_row = Some 15 /\
    (cook_time alice_omelette_row = None \/ cook_time alice_omelette_row = Some 0))).
Proof.
  apply (total_time_card_and_page omelette alice_omelette_row 15); reflexivity.
Defined.

Lemma deletes_are_monotone_witness :
  lists omelette_butter_db alice omelette_id /\
  lists (delete_user_restrictions (Some alice) omelette_allergy_db 31%N) alice omelette_id.
Proof.
  split.
  - apply (proj1 (deletes_are_monotone (Some alice) omelette_butter_db alice omelette_id 21%N)).
    exists (hd alice_omelette_row
               (fetchRecommendations (delete_user_pantry (Some alice) omelette_butter_db 21%N)
                                     alice)).
    vm_compute. split; [left; reflexivity|reflexivity].
  - apply (proj2 (deletes_are_monotone (Some alice) omelette_allergy_db alice omelette_id 31%N)).
    exists (hd alice_omelette_row (fetchRecommendations omelette_allergy_db alice)).
    vm_compute. split; [left; reflexivity|reflexivity].
Defined.

(** * Keys of the rendered lists *)

Lemma unique_key_injective {A : Type} (f : A -> uuid) (l : list A) (x y : A) :
  NoDup (map f l) -> In x l -> In y l -> f x = f y -> x = y.
Proof.
  intros Hnd Hx Hy E.
  pose proof (filter_unique_key f l x Hnd Hx) as Fx.
  assert (Hin : In y (filter (fun z => N.eqb (f z) (f x)) l))
    by (apply filter_In; split; [exact Hy|apply N.eqb_eq; congruence]).
  rewrite Fx in Hin. destruct Hin as [->|[]]. reflexivity.
Qed.

(** X20. With unique recipe ids the list of a user has at most one row per
    recipe id, so the [key={recipe.id}] of the cards are pairwise distinct. *)
Theorem one_card_per_recipe (db : database) (u : uuid) :
  NoDup (map r_id (recipes db)) ->
  NoDup (map id (fetchRecommendations db u)).
Proof.
  intros Hpk. unfold fetchRecommendations.
  eapply Permutation_NoDup; [apply Permutation_map, order_by_v_score_desc_perm|].
  rewrite view_of_user_rows. unfold group_by.
  rewrite filter_map_swap, !map_map. cbn [select_list id fst snd].
  apply NoDup_map_NoDup_ForallPairs; [|apply NoDup_filter, NoDup_nodup].
  intros k1 k2 H1 H2 E.
  apply filter_In in H1 as [H1 _]. apply filter_In in H2 as [H2 _].
  apply nodup_In, in_map_iff in H1 as (j1 & <- & Hj1).
  apply nodup_In, in_map_iff in H2 as (j2 & <- & Hj2).
  unfold user_rows, grouped_rows in Hj1, Hj2.
  apply filter_In in Hj1 as [Hj1 U1]. apply filter_In in Hj2 as [Hj2 U2].
  apply filter_In in Hj1 as [Hj1 _]. apply filter_In in Hj2 as [Hj2 _].
  apply from_clause_In in Hj1 as (Hr1 & _). apply from_clause_In in Hj2 as (Hr2 & _).
  unfold key_of in *. cbn [fst] in E.
  rewrite (unique_key_injective r_id (recipes db) _ _ Hpk Hr1 Hr2 E). f_equal.
  unfold of_user in U1, U2.
  destruct (up_user_id_of j1) as [v1|]; [|discriminate].
  destruct (up_user_id_of j2) as [v2|]; [|discriminate].
  apply N.eqb_eq in U1, U2. congruence.
Qed.

Lemma one_card_per_recipe_witness :
  List.length (fetchRecommendations two_dish_db alice) = 2%nat /\
  NoDup (map id (fetchRecommendations two_dish_db alice)).
Proof.
  split; [vm_compute; reflexivity|].
  apply (one_card_per_recipe two_dish_db alice).
  cbn. repeat constructor; cbn; intuition discriminate.
Defined.

Lemma find_unique_key (db : database) (ing : uuid) :
  In ing (map i_id (ingredients db)) ->
  exists i, embedded_ingredient db ing = Some i /\ In i (ingredients db) /\ i_id i = ing.
Proof.
  intros Hin. apply in_map_iff in Hin as (i0 & E0 & Hi0).
  unfold embedded_ingredient.
  destruct (find _ (ingredients db)) as [i|] eqn:F.
  - apply find_some in F as [Hi Ei]. apply N.eqb_eq in Ei. eauto.
  - pose proof (find_none _ _ F i0 Hi0) as Hf. cbn in Hf.
    apply N.eqb_neq in Hf. contradiction.
Qed.

(** X21. Under the constraints of [user_pantry] the fetched pantry list has
    pairwise distinct item ids (the [key] of its cards) and no ingredient
    twice, and every item carries the name of an ingredient of the catalog:
    the fallback [''] of the format never replaces a name. *)
Theorem pantry_items_distinct_and_named (auth : option uuid) (db : database) (userId : uuid) :
  user_pantry_ok db ->
  NoDup (map Pantry.id (Pantry.fetchPantryItems auth db userId)) /\
  NoDup (map Pantry.ingredient_id (Pantry.fetchPantryItems auth db userId)) /\
  forall item, In item (Pantry.fetchPantryItems auth db userId) ->
    exists i, In i (ingredients db) /\ i_id i = Pantry.ingredient_id item /\
              Pantry.ingredient_name item = i_name i.
Proof.
  intros (Hpk & Huq & Hfk). unfold Pantry.fetchPantryItems.
  set (l := filter _ (filter _ (user_pantry db))).
  assert (Hl : forall up, In up l -> In up (user_pantry db) /\ up_user_id up = userId).
  { intros up Hup. subst l. apply filter_In in Hup as [Hup E].
    apply filter_In in Hup as [Hup _]. apply N.eqb_eq in E. auto. }
  rewrite !map_map. cbn [Pantry.id Pantry.ingredient_id Pantry.format].
  split; [|split].
  - subst l. do 2 apply NoDup_map_filter. exact Hpk.
  - assert (Hpairs : NoDup (map (fun up => (up_user_id up, up_ingredient_id up)) l))
      by (subst l; do 2 apply NoDup_map_filter; exact Huq).
    rewrite (map_ext_in _ (fun up => (userId, up_ingredient_id up)) l) in Hpairs
      by (intros up Hup; f_equal; apply Hl, Hup).
    rewrite <- (map_map up_ingredient_id (pair userId)) in Hpairs.
    apply NoDup_map_inv in Hpairs. exact Hpairs.
  - intros item Hitem. apply in_map_iff in Hitem as (up & <- & Hup).
    apply Hl in Hup as [Hup _]. apply Hfk in Hup as [_ Hing].
    apply find_unique_key in Hing as (i & F & Hi & Ei).
    exists i. cbn [Pantry.ingredient_id Pantry.ingredient_name Pantry.format].
    rewrite F. cbn. auto.
Qed.

Lemma pantry_items_distinct_and_named_witness :
  NoDup (map Pantry.id (Pantry.fetchPantryItems (Some alice) omelette_db alice)) /\
  NoDup (map Pantry.ingredient_id (Pantry.fetchPantryItems (Some alice) omelette_db alice)) /\
  forall item, In item (Pantry.fetchPantryItems (Some alice) omelette_db alice) ->
    exists i, In i (ingredients omelette_db) /\ i_id i = Pantry.ingredient_id item /\
              Pantry.ingredient_name item = i_name i.
Proof.
  apply (pantry_items_distinct_and_named (Some alice) omelette_db alice).
  unfold user_pantry_ok. cbn. split; [|split].
  - repeat constructor; cbn; intuition discriminate.
  - repeat constructor; cbn; intuition discriminate.
  - intros up H. repeat (destruct H as [<-|H]; [cbn; tauto|]). destruct H.
Defined.
